(** * AirMonitor: a shallow embedding of [AirMonitor.py]

    The monitor object, its methods and the [__main__] block are embedded
    as functions of a small state / exception / trace monad.  Everything the
    program talks to (GPIO, the DHT11 driver, the LCD driver, the Adafruit IO
    client, the wall clock, [time.sleep]) is an oracle of a [World]: each
    call is appended to a trace and answered from the trace so far, so a
    collaborator may answer or raise differently at every call.

    Python values are modelled as the interpreter has them: floats are
    IEEE-754 binary64 ([SpecFloat] at precision 53), strings are [string],
    [None]-able attributes are [option]. *)

From Stdlib Require Import ZArith List String Ascii Bool Lia DecimalString.
From Stdlib Require Import Floats.SpecFloat.
Import ListNotations.
Open Scope string_scope.
Open Scope Z_scope.

(** ** Python floats *)

Module PyFloat.

Definition float : Type := spec_float.
Definition prec : Z := 53.
Definition emax : Z := 1024.

(** [x + y], [x * y] and [x / y] on floats: round to nearest, ties to even. *)
Definition add : float -> float -> float := SFadd prec emax.
Definition mul : float -> float -> float := SFmul prec emax.
Definition div : float -> float -> float := SFdiv prec emax.

(** An [int] operand of a float operation is converted first. *)
Definition of_Z (z : Z) : float := binary_normalize prec emax z 0 false.

(** The float of the decimal literal [n * 10^k] (of [n / 10^(-k)] for a
    negative [k]), for [n] and the power of ten below [2^53]. *)
Definition decimal (n : Z) (k : Z) : float :=
  if 0 <=? k then of_Z (n * 10 ^ k) else div (of_Z n) (of_Z (10 ^ (- k))).

Definition is_finite (x : float) : bool :=
  match x with
  | S754_zero _ | S754_finite _ _ _ => true
  | _ => false
  end.

End PyFloat.

(** ** Python strings *)

Module PyStr.

(** [str(n)] and ["%d" % n] for an [int]. *)
Definition str_of_Z (z : Z) : string := NilZero.string_of_int (Z.to_int z).

(** [c in s] for a one-character [c]. *)
Fixpoint contains (c : ascii) (s : string) : bool :=
  match s with
  | EmptyString => false
  | String a s' => Ascii.eqb a c || contains c s'
  end.

(** [s.rstrip(c)] for a one-character [c]. *)
Fixpoint rstrip (c : ascii) (s : string) : string :=
  match s with
  | EmptyString => EmptyString
  | String a s' =>
      match rstrip c s' with
      | EmptyString => if Ascii.eqb a c then EmptyString else String a EmptyString
      | t => String a t
      end
  end.

Definition upper_ascii (a : ascii) : ascii :=
  let n := nat_of_ascii a in
  if (Nat.leb 97 n && Nat.leb n 122)%bool then ascii_of_nat (n - 32) else a.

(** [s.upper()]. *)
Fixpoint upper (s : string) : string :=
  match s with
  | EmptyString => EmptyString
  | String a s' => String (upper_ascii a) (upper s')
  end.

Fixpoint zeros (n : nat) : string :=
  match n with
  | O => EmptyString
  | S k => String "0" (zeros k)
  end.

(** The last character of a string, if any. *)
Fixpoint last_char (s : string) : option ascii :=
  match s with
  | EmptyString => None
  | String a EmptyString => Some a
  | String _ s' => last_char s'
  end.

(** Truth value of an attribute that is [None] or a [str]. *)
Definition truthy (v : option string) : bool :=
  match v with
  | Some (String _ _) => true
  | _ => false
  end.

(** An attribute inside an f-string: [None] prints as ["None"]. *)
Definition fstr (v : option string) : string :=
  match v with
  | Some s => s
  | None => "None"
  end.

End PyStr.

(** ** The ['{0:.3g}'] presentation of a float

    [format_3g x] is ['{0:.3g}'.format(x)]: the exact binary value is
    rounded to three significant decimal digits (ties to even), trailing
    zeros of the digit string are dropped, and the result is written with an
    exponent when the decimal exponent is below -4 or at least 3. *)

Module Fmt.
Import PyStr.

Fixpoint ilog10_aux (fuel : nat) (n : Z) : Z :=
  match fuel with
  | O => 0
  | S f => if n <? 10 then 0 else 1 + ilog10_aux f (n / 10)
  end.

(** [floor (log10 n)] for [n >= 1]. *)
Definition ilog10 (n : Z) : Z := ilog10_aux (S (Z.to_nat (Z.log2 n))) n.

(** [floor (log10 (num / den))] for positive [num] and [den]. *)
Definition dec_exponent (num den : Z) : Z :=
  if den <=? num then ilog10 (num / den)
  else - (1 + ilog10 ((den + num - 1) / num - 1)).

Definition round_half_even (n d : Z) : Z :=
  let q := n / d in
  match (2 * (n mod d)) ?= d with
  | Lt => q
  | Gt => q + 1
  | Eq => if Z.even q then q else q + 1
  end.

(** Three significant digits [q] (100 <= q < 1000) and the decimal
    exponent [X] of [num / den]: the rounded value is [q * 10^(X-2)]. *)
Definition sig3 (num den : Z) : Z * Z :=
  let X := dec_exponent num den in
  let q := if 2 <=? X then round_half_even num (den * 10 ^ (X - 2))
           else round_half_even (num * 10 ^ (2 - X)) den in
  if q =? 1000 then (100, X + 1) else (q, X).

Definition digit_chars : list ascii :=
  ["0"; "1"; "2"; "3"; "4"; "5"; "6"; "7"; "8"; "9"]%char.

(** The character of the decimal digit [d]. *)
Definition digit (d : Z) : ascii := nth (Z.to_nat d) digit_chars "0"%char.

Definition digits3 (q : Z) : string :=
  String (digit (q / 100))
    (String (digit ((q / 10) mod 10))
       (String (digit (q mod 10)) EmptyString)).

(** The exponent field: [e], a sign, and at least two digits. *)
Definition exp_field (X : Z) : string :=
  let a := Z.abs X in
  String "e" (String (if X <? 0 then "-" else "+")
    ((if a <? 10 then "0" else "") ++ str_of_Z a)).

Definition with_point (int_part frac : string) : string :=
  match frac with
  | EmptyString => int_part
  | _ => int_part ++ String "." frac
  end.

(** [ds] is the digit string without trailing zeros, [X] the exponent. *)
Definition render (ds : string) (X : Z) : string :=
  match ds with
  | EmptyString => "0"
  | String d rest =>
      if (X <? -4) || (3 <=? X) then
        with_point (String d EmptyString) rest ++ exp_field X
      else if X <? 0 then
        "0." ++ zeros (Z.to_nat (- X - 1)) ++ ds
      else
        let n := Z.to_nat (X + 1) in
        let padded := ds ++ zeros (n - String.length ds) in
        with_point (substring 0 n padded)
                   (substring n (String.length padded - n) padded)
  end.

Definition g3 (m : positive) (e : Z) : string :=
  let '(num, den) :=
    if 0 <=? e then (Zpos m * 2 ^ e, 1) else (Zpos m, 2 ^ (- e)) in
  let '(q, X) := sig3 num den in
  render (rstrip "0" (digits3 q)) X.

Definition sign_str (s : bool) : string := if s then "-" else "".

Definition format_3g (x : PyFloat.float) : string :=
  match x with
  | S754_nan => "nan"
  | S754_infinity s => sign_str s ++ "inf"
  | S754_zero s => sign_str s ++ "0"
  | S754_finite s m e => sign_str s ++ g3 m e
  end.

(** Whether the presentation of [x] uses an exponent field. *)
Definition uses_exponent (x : PyFloat.float) : bool :=
  match x with
  | S754_finite _ m e =>
      let '(num, den) :=
        if 0 <=? e then (Zpos m * 2 ^ e, 1) else (Zpos m, 2 ^ (- e)) in
      let '(_, X) := sig3 num den in
      (X <? -4) || (3 <=? X)
  | _ => false
  end.

End Fmt.

(** ** Exceptions, collaborators and the monitor object *)

(** [RequestError] is what the Adafruit IO client raises for a failed
    request; [Exception] stands for any other subclass of Python's
    [Exception]; [KeyboardInterrupt] is not a subclass of [Exception]. *)
Inductive exn : Type :=
| RequestError
| Exception (msg : string)
| KeyboardInterrupt.

Definition is_RequestError (e : exn) : bool :=
  match e with
  | RequestError => true
  | _ => false
  end.

(** [isinstance(e, Exception)]. *)
Definition is_Exception (e : exn) : bool :=
  match e with
  | KeyboardInterrupt => false
  | _ => true
  end.

(** What a collaborator answers to one call. *)
Inductive answer (A : Type) : Type :=
| Ok (a : A)
| Fails (e : exn).
Arguments Ok {A} a.
Arguments Fails {A} e.

(** [datetime] values are counted in microseconds; the bounds of the type
    (years 1 to 9999) are left out. *)
Definition datetime : Type := Z.

(** [datetime.timedelta(minutes=n)]. *)
Definition timedelta_minutes (n : Z) : Z := n * 60000000.

(** What [DHT11.read()] returns. *)
Record DHT11Result : Type := {
  is_valid : bool;
  error_code : Z;
  temperature : PyFloat.float;
  dht_humidity : PyFloat.float
}.

(** A feed of the Adafruit IO service. *)
Record Feed : Type := {
  feed_key : string;
  feed_name : string
}.

(** The calls the program makes on its collaborators, in program order. *)
Inductive event : Type :=
| GPIO_setwarnings (flag : bool)
| GPIO_setmode_BCM
| GPIO_cleanup
| lcd_new
| lcd_clear
| lcd_display_string (text : string) (line : Z)
| dht_read
| datetime_now
| aio_feeds (feed : string)
| aio_create_feed (name : string)
| aio_send_data (key value : string)
| time_sleep (seconds : Z)
| print (message : string).

Definition is_GPIO_cleanup (ev : event) : bool :=
  match ev with
  | GPIO_cleanup => true
  | _ => false
  end.

(** An event of the telemetry client. *)
Definition is_aio (ev : event) : bool :=
  match ev with
  | aio_feeds _ | aio_create_feed _ | aio_send_data _ _ => true
  | _ => false
  end.

(** The feed names looked up in a trace, in order. *)
Fixpoint lookups (evs : list event) : list string :=
  match evs with
  | [] => []
  | aio_feeds k :: evs' => k :: lookups evs'
  | _ :: evs' => lookups evs'
  end.

(** The values sent under a feed key in a trace, in order. *)
Fixpoint sends_to (k : string) (evs : list event) : list string :=
  match evs with
  | [] => []
  | aio_send_data k' v :: evs' =>
      if String.eqb k' k then v :: sends_to k evs' else sends_to k evs'
  | _ :: evs' => sends_to k evs'
  end.

(** The collaborators.  Each oracle sees the calls made so far. *)
Record World : Type := {
  clock : list event -> datetime;
  str_datetime : datetime -> string;
  sensor : list event -> answer DHT11Result;
  lcd_init : list event -> answer unit;
  lcd_cleared : list event -> answer unit;
  lcd_written : list event -> string -> Z -> answer unit;
  feeds : list event -> string -> answer Feed;
  create_feed : list event -> string -> answer Feed;
  send_data : list event -> string -> string -> answer unit;
  slept : list event -> Z -> answer unit
}.

(** [AirMonitor.cfg] once read: the options the monitor consults, with the
    [int(...)] and [float(...)] conversions of lines 55, 88, 116, 118 and
    167 already applied.  A file that lacks one of these options, or holds
    text that does not convert, makes the program raise [KeyError] or
    [ValueError] where the option is first used; the record describes the
    files that do not. *)
Record Config : Type := {
  UPDATE_INTERVAL : Z;
  ENV_SENSOR_TYPE : string;
  DHT11_PIN : Z;
  TEMPERATURE_CALIBRATION : PyFloat.float;
  HUMIDITY_CALIBRATION : PyFloat.float;
  DISPLAY_ENABLED : string;
  ADAFRUIT_IO_ENABLED : string;
  UPLOAD_INTERVAL : Z;
  CONSOLE_ENABLED : string
}.

(** The attributes of an [AirMonitor] instance. *)
Record AirMonitor : Type := {
  temperature_celsius : option string;
  temperature_fahrenheit : option string;
  humidity : option string;
  config : Config;
  dht_sensor : option Z;
  adafruit_last_upload : option datetime
}.

Definition set_readings (c f h : option string) (self : AirMonitor) : AirMonitor :=
  {| temperature_celsius := c;
     temperature_fahrenheit := f;
     humidity := h;
     config := config self;
     dht_sensor := dht_sensor self;
     adafruit_last_upload := adafruit_last_upload self |}.

Definition set_dht_sensor (pin : option Z) (self : AirMonitor) : AirMonitor :=
  {| temperature_celsius := temperature_celsius self;
     temperature_fahrenheit := temperature_fahrenheit self;
     humidity := humidity self;
     config := config self;
     dht_sensor := pin;
     adafruit_last_upload := adafruit_last_upload self |}.

(** The instance as [__init__] receives it: no attribute assigned yet;
    [cfg] is what line 31 reads from [AirMonitor.cfg]. *)
Definition blank (cfg : Config) : AirMonitor :=
  {| temperature_celsius := None;
     temperature_fahrenheit := None;
     humidity := None;
     config := cfg;
     dht_sensor := None;
     adafruit_last_upload := None |}.

Definition set_adafruit_last_upload (t : option datetime) (self : AirMonitor)
  : AirMonitor :=
  {| temperature_celsius := temperature_celsius self;
     temperature_fahrenheit := temperature_fahrenheit self;
     humidity := humidity self;
     config := config self;
     dht_sensor := dht_sensor self;
     adafruit_last_upload := t |}.

(** ** The monad of the methods

    A method maps the instance and the trace so far to an outcome, the
    instance as it has become, and the extended trace.  [Running] is the
    outcome of a loop of which only a finite prefix has been unfolded. *)

Inductive outcome (A : Type) : Type :=
| Return (a : A)
| Raise (e : exn)
| Running.
Arguments Return {A} a.
Arguments Raise {A} e.
Arguments Running {A}.

Definition M (A : Type) : Type :=
  AirMonitor -> list event -> outcome A * AirMonitor * list event.

Definition ret {A : Type} (a : A) : M A :=
  fun self h => (Return a, self, h).

Definition bind {A B : Type} (c : M A) (k : A -> M B) : M B :=
  fun self h =>
    match c self h with
    | (Return a, self', h') => k a self' h'
    | (Raise e, self', h') => (Raise e, self', h')
    | (Running, self', h') => (Running, self', h')
    end.

Declare Scope monitor_scope.
Delimit Scope monitor_scope with monitor.
Notation "x <- c ;; k" := (bind c (fun x => k))
  (at level 61, c at next level, right associativity) : monitor_scope.
Notation "c ;; k" := (bind c (fun _ => k))
  (at level 61, right associativity) : monitor_scope.
Open Scope monitor_scope.

Definition raise {A : Type} (e : exn) : M A :=
  fun self h => (Raise e, self, h).

Definition get_self : M AirMonitor :=
  fun self h => (Return self, self, h).

Definition modify (f : AirMonitor -> AirMonitor) : M unit :=
  fun self h => (Return tt, f self, h).

(** A call on a collaborator: answered from the trace before the call. *)
Definition call {A : Type} (ev : event) (oracle : list event -> answer A) : M A :=
  fun self h =>
    match oracle h with
    | Ok a => (Return a, self, (h ++ [ev])%list)
    | Fails e => (Raise e, self, (h ++ [ev])%list)
    end.

(** A call that cannot fail. *)
Definition emit (ev : event) : M unit :=
  fun self h => (Return tt, self, (h ++ [ev])%list).

(** [try: c  except <catches>: handler]. *)
Definition try_except {A : Type} (c : M A) (catches : exn -> bool)
    (handler : exn -> M A) : M A :=
  fun self h =>
    match c self h with
    | (Raise e, self', h') =>
        if catches e then handler e self' h' else (Raise e, self', h')
    | r => r
    end.

(** [try: c  finally: fin]. *)
Definition try_finally {A : Type} (c : M A) (fin : M unit) : M A :=
  fun self h =>
    match c self h with
    | (Running, self', h') => (Running, self', h')
    | (o, self', h') =>
        match fin self' h' with
        | (Return _, self'', h'') => (o, self'', h'')
        | (Raise e, self'', h'') => (Raise e, self'', h'')
        | (Running, self'', h'') => (Running, self'', h'')
        end
    end.

(** [for x in xs: body x]. *)
Fixpoint for_each {A : Type} (xs : list A) (body : A -> M unit) : M unit :=
  match xs with
  | [] => ret tt
  | x :: xs' => body x ;; for_each xs' body
  end.

(** ** The methods of [AirMonitor] *)

(** Lines 57-68. *)
Definition _FormatResult (unformatted_value : PyFloat.float) : string :=
  let value := Fmt.format_3g unformatted_value in
  if PyStr.contains "." value then PyStr.rstrip "0" value else value.

(** Lines 70-78: [(celsius_temperature * (9/5)) + 32]. *)
Definition _ctof (celsius_temperature : PyFloat.float) : PyFloat.float :=
  PyFloat.add
    (PyFloat.mul celsius_temperature
                 (PyFloat.div (PyFloat.of_Z 9) (PyFloat.of_Z 5)))
    (PyFloat.of_Z 32).

(** [option == 'Y'] after [.upper()]. *)
Definition enabled (option : string) : bool :=
  String.eqb (PyStr.upper option) "Y".

Section Methods.

Variable w : World.

Definition now : M datetime :=
  call datetime_now (fun h => Ok (clock w h)).

(** Lines 144-151. *)
Definition Log (message : string) : M unit :=
  self <- get_self ;;
  if enabled (CONSOLE_ENABLED (config self))
  then emit (print message)
  else ret tt.

(** Lines 133-142.  The dict keeps its insertion order. *)
Definition GetValueDict : M (list (string * option string)) :=
  self <- get_self ;;
  ret [("fahrenheit", temperature_fahrenheit self);
       ("celsius", temperature_celsius self);
       ("humidity", humidity self)].

(** Lines 93-100: the body of the loop over the value dict. *)
Definition upload_value (kv : string * option string) : M unit :=
  let '(key, value) := kv in
  if PyStr.truthy value then
    feed <- try_except
              (call (aio_feeds key) (fun h => feeds w h key))
              is_RequestError
              (fun _ => call (aio_create_feed key)
                             (fun h => create_feed w h key)) ;;
    call (aio_send_data (feed_key feed) (PyStr.fstr value))
         (fun h => send_data w h (feed_key feed) (PyStr.fstr value))
  else ret tt.

(** Lines 85-88: the test that gates an upload.  The clock is read only
    when a previous upload is on record. *)
Definition upload_due : M bool :=
  self <- get_self ;;
  match adafruit_last_upload self with
  | None => ret true
  | Some last =>
      t <- now ;;
      ret (last + timedelta_minutes (UPLOAD_INTERVAL (config self)) <=? t)
  end.

(** Lines 90-101: the publish pass and the record of its time. *)
Definition upload_pass : M unit :=
  values <- GetValueDict ;;
  for_each values upload_value ;;
  t <- now ;;
  modify (set_adafruit_last_upload (Some t)).

(** Lines 80-101. *)
Definition AdafruitUpload : M unit :=
  self <- get_self ;;
  if enabled (ADAFRUIT_IO_ENABLED (config self)) then
    due <- upload_due ;;
    if due : bool then upload_pass else ret tt
  else ret tt.

(** Lines 103-107. *)
Definition Cleanup : M unit :=
  Log "Shutting Down" ;;
  emit GPIO_cleanup.

(** Lines 109-125. *)
Definition DHT11Read : M unit :=
  result <- call dht_read (sensor w) ;;
  if is_valid result then
    modify (fun self =>
      let corrected_temperature :=
        PyFloat.add (temperature result)
                    (TEMPERATURE_CALIBRATION (config self)) in
      let corrected_humidity :=
        PyFloat.add (dht_humidity result)
                    (HUMIDITY_CALIBRATION (config self)) in
      set_readings
        (Some (_FormatResult corrected_temperature))
        (Some (_FormatResult (_ctof corrected_temperature)))
        (Some (_FormatResult corrected_humidity))
        self)
  else
    Log ("DHT11 Error: " ++ PyStr.str_of_Z (error_code result)).

(** Lines 127-131. *)
Definition GetEnvironmentMetrics : M unit :=
  self <- get_self ;;
  match dht_sensor self with
  | Some _ => DHT11Read
  | None => ret tt
  end.

(** Lines 153-159. *)
Definition LogResults : M unit :=
  t <- now ;;
  Log (str_datetime w t) ;;
  self <- get_self ;;
  Log ("celsius: " ++ PyStr.fstr (temperature_celsius self) ++ "C") ;;
  Log ("Fahrenheit: " ++ PyStr.fstr (temperature_fahrenheit self) ++ "F") ;;
  Log ("Humidity: " ++ PyStr.fstr (humidity self) ++ "%").

(** Lines 171-177. *)
Definition UpdateLCDDisplay : M unit :=
  call lcd_clear (lcd_cleared w) ;;
  t <- now ;;
  call (lcd_display_string (str_datetime w t) 1)
       (fun h => lcd_written w h (str_datetime w t) 1) ;;
  self <- get_self ;;
  let line := "T|" ++ PyStr.fstr (temperature_fahrenheit self) ++ "F H|"
              ++ PyStr.fstr (humidity self) ++ "%" in
  call (lcd_display_string line 2) (fun h => lcd_written w h line 2).

(** Lines 47-55: one turn of the [while True] loop. *)
Definition Run_iteration : M unit :=
  GetEnvironmentMetrics ;;
  LogResults ;;
  self <- get_self ;;
  (if enabled (DISPLAY_ENABLED (config self))
   then UpdateLCDDisplay else ret tt) ;;
  AdafruitUpload ;;
  call (time_sleep (UPDATE_INTERVAL (config self)))
       (fun h => slept w h (UPDATE_INTERVAL (config self))).

(** Lines 43-55: the first [n] turns of [while True].  The loop has no
    exit, so after [n] turns without an exception it is still [Running]. *)
Fixpoint Run (n : nat) : M unit :=
  match n with
  | O => fun self h => (Running, self, h)
  | S n' => Run_iteration ;; Run n'
  end.

(** Lines 161-169. *)
Definition SetupSesnors : M unit :=
  self <- get_self ;;
  if String.eqb (ENV_SENSOR_TYPE (config self)) "DHT11"
  then modify (set_dht_sensor (Some (DHT11_PIN (config self))))
  else raise (Exception "Invalid sensor defined").

(** Lines 22-41. *)
Definition __init__ : M unit :=
  modify (set_readings None None None) ;;
  emit (GPIO_setwarnings true) ;;
  emit GPIO_setmode_BCM ;;
  SetupSesnors ;;
  self <- get_self ;;
  (if enabled (DISPLAY_ENABLED (config self))
   then call lcd_new (lcd_init w) else ret tt) ;;
  if enabled (ADAFRUIT_IO_ENABLED (config self))
  then modify (set_adafruit_last_upload None)
  else ret tt.

(** Lines 183-188: [try: Run() except Exception: raise finally: Cleanup()]. *)
Definition guarded_Run (n : nat) : M unit :=
  try_finally
    (try_except (Run n) is_Exception (fun e => raise e))
    Cleanup.

(** Lines 179-188.  When the constructor raises, no instance is bound and
    the [try] statement is never entered. *)
Definition main (cfg : Config) (n : nat)
  : outcome unit * option AirMonitor * list event :=
  match __init__ (blank cfg) [] with
  | (Return _, monitor, h) =>
      let '(o, monitor', h') := guarded_Run n monitor h in
      (o, Some monitor', h')
  | (Raise e, _, h) => (Raise e, None, h)
  | (Running, _, h) => (Running, None, h)
  end.

End Methods.

(** * Notions used in the statements *)

(** ** What a method may do: an invariant of the instance and a class of
    events.  [respects I P c]: started on an instance satisfying [I], the
    method [c] leaves an instance satisfying [I] whatever its outcome, only
    appends to the trace, and appends only events of class [P]. *)

Definition respects {A : Type} (I : AirMonitor -> Prop) (P : event -> Prop)
    (c : M A) : Prop :=
  forall self h o self' h',
    I self ->
    c self h = (o, self', h') ->
    I self' /\ exists evs, h' = (h ++ evs)%list /\ Forall P evs.

(** The readings held by the instance come from one valid sample [r]. *)
Definition from_sample (r : DHT11Result) (self : AirMonitor) : Prop :=
  let corrected_temperature :=
    PyFloat.add (temperature r) (TEMPERATURE_CALIBRATION (config self)) in
  let corrected_humidity :=
    PyFloat.add (dht_humidity r) (HUMIDITY_CALIBRATION (config self)) in
  temperature_celsius self = Some (_FormatResult corrected_temperature) /\
  temperature_fahrenheit self
    = Some (_FormatResult (_ctof corrected_temperature)) /\
  humidity self = Some (_FormatResult corrected_humidity).

(** All three readings absent, or all three present and from one sample. *)
Definition reading_atomic (self : AirMonitor) : Prop :=
  (temperature_celsius self = None /\
   temperature_fahrenheit self = None /\
   humidity self = None)
  \/ exists r, is_valid r = true /\ from_sample r self.

(** The outcome of a call that is not caught. *)
Definition outcome_of {A : Type} (a : answer A) : outcome A :=
  match a with
  | Ok x => Return x
  | Fails e => Raise e
  end.

(** The call [ev], made after the trace [h], raises [e] and no handler of
    [AdafruitUpload] catches it. *)
Definition fails_at (w : World) (h : list event) (ev : event) (e : exn) : Prop :=
  match ev with
  | aio_feeds k => feeds w h k = Fails e /\ is_RequestError e = false
  | aio_create_feed k => create_feed w h k = Fails e
  | aio_send_data k v => send_data w h k v = Fails e
  | _ => False
  end.

(** The keys of a value dict whose values are true, in dict order. *)
Fixpoint wanted_keys (values : list (string * option string)) : list string :=
  match values with
  | [] => []
  | (k, v) :: values' =>
      if PyStr.truthy v then k :: wanted_keys values' else wanted_keys values'
  end.

(** The channels a publish pass has to serve for the instance [self]. *)
Definition wanted (self : AirMonitor) : list string :=
  wanted_keys [("fahrenheit", temperature_fahrenheit self);
               ("celsius", temperature_celsius self);
               ("humidity", humidity self)].

Definition prefix {A : Type} (l1 l2 : list A) : Prop :=
  exists l, l2 = (l1 ++ l)%list.



(** The methods a caller may invoke on a constructed instance. *)
Inductive operation : Type :=
| op_Run (n : nat)
| op_AdafruitUpload
| op_Cleanup
| op_DHT11Read
| op_GetEnvironmentMetrics
| op_LogResults
| op_UpdateLCDDisplay.

Definition perform (w : World) (op : operation) : M unit :=
  match op with
  | op_Run n => Run w n
  | op_AdafruitUpload => AdafruitUpload w
  | op_Cleanup => Cleanup
  | op_DHT11Read => DHT11Read w
  | op_GetEnvironmentMetrics => GetEnvironmentMetrics w
  | op_LogResults => LogResults w
  | op_UpdateLCDDisplay => UpdateLCDDisplay w
  end.

(** A caller that invokes methods one after the other and carries on
    whatever their outcome. *)
Fixpoint perform_all (w : World) (ops : list operation)
    (self : AirMonitor) (h : list event) : AirMonitor * list event :=
  match ops with
  | [] => (self, h)
  | op :: ops' =>
      let '(_, self', h') := perform w op self h in
      perform_all w ops' self' h'
  end.

(** [_FormatResult] hands back the presentation [v] as it is: [v] has no
    decimal point, or does not end in a zero. *)
Definition kept (v : string) : bool :=
  if PyStr.contains "." v
  then match PyStr.last_char v with
       | Some c => negb (Ascii.eqb c "0")
       | None => true
       end
  else true.

(** Every presentation without exponent field: a sign, three digits, a
    decimal exponent from -4 to 2. *)
Definition plain_presentations_kept : bool :=
  forallb (fun s =>
    forallb (fun c1 =>
      forallb (fun c2 =>
        forallb (fun c3 =>
          forallb (fun X =>
            kept (Fmt.sign_str s ++
                  Fmt.render
                    (PyStr.rstrip "0"
                       (String c1 (String c2 (String c3 EmptyString)))) X))
            [-4; -3; -2; -1; 0; 1; 2])
          Fmt.digit_chars)
        Fmt.digit_chars)
      Fmt.digit_chars)
    [true; false].

(** ** Sample collaborators and configurations *)

Module Sample.

Definition cfg : Config :=
  {| UPDATE_INTERVAL := 10;
     ENV_SENSOR_TYPE := "DHT11";
     DHT11_PIN := 4;
     TEMPERATURE_CALIBRATION := PyFloat.decimal 5 (-1);
     HUMIDITY_CALIBRATION := PyFloat.of_Z (-1);
     DISPLAY_ENABLED := "y";
     ADAFRUIT_IO_ENABLED := "Y";
     UPLOAD_INTERVAL := 5;
     CONSOLE_ENABLED := "Y" |}.

(** A reading of 22.0 degrees and 50.0 percent. *)
Definition reading (valid : bool) : DHT11Result :=
  {| is_valid := valid;
     error_code := if valid then 0 else 2;
     temperature := PyFloat.of_Z 22;
     dht_humidity := PyFloat.of_Z 50 |}.

Definition server_feed (k : string) : Feed :=
  {| feed_key := k; feed_name := k |}.

(** Every collaborator answers; the clock stands at [t]; the sensor reading
    is valid or not as [valid] says; feeds named in [missing] are unknown to
    the service until created; a send under a key in [broken] raises; the
    sleep is interrupted once the trace is longer than [stop]. *)
Definition world (t : datetime) (valid : bool) (missing broken : list string)
    (stop : nat) : World :=
  {| clock := fun _ => t;
     str_datetime := PyStr.str_of_Z;
     sensor := fun _ => Ok (reading valid);
     lcd_init := fun _ => Ok tt;
     lcd_cleared := fun _ => Ok tt;
     lcd_written := fun _ _ _ => Ok tt;
     feeds := fun _ k =>
       if existsb (String.eqb k) missing then Fails RequestError
       else Ok (server_feed k);
     create_feed := fun _ k => Ok (server_feed k);
     send_data := fun _ k _ =>
       if existsb (String.eqb k) broken
       then Fails (Exception "send failed") else Ok tt;
     slept := fun h _ =>
       if Nat.ltb stop (List.length h) then Fails KeyboardInterrupt else Ok tt |}.

(** A fresh instance and one that holds the readings of [reading true]. *)
Definition fresh (last : option datetime) : AirMonitor :=
  {| temperature_celsius := None;
     temperature_fahrenheit := None;
     humidity := None;
     config := cfg;
     dht_sensor := Some 4;
     adafruit_last_upload := last |}.

Definition sampled (last : option datetime) : AirMonitor :=
  {| temperature_celsius := Some "22.5";
     temperature_fahrenheit := Some "72.5";
     humidity := Some "49";
     config := cfg;
     dht_sensor := Some 4;
     adafruit_last_upload := last |}.

End Sample.

(** ** Further notions: classes of calls, and who raised *)

Definition is_print (ev : event) : bool :=
  match ev with
  | print _ => true
  | _ => false
  end.

(** A call on the LCD driver, its construction included. *)
Definition is_lcd (ev : event) : bool :=
  match ev with
  | lcd_new | lcd_clear | lcd_display_string _ _ => true
  | _ => false
  end.

Definition is_lookup (ev : event) : bool :=
  match ev with
  | aio_feeds _ => true
  | _ => false
  end.

Definition is_create (ev : event) : bool :=
  match ev with
  | aio_create_feed _ => true
  | _ => false
  end.

Definition is_send (ev : event) : bool :=
  match ev with
  | aio_send_data _ _ => true
  | _ => false
  end.

Definition is_sensor_read (ev : event) : bool :=
  match ev with
  | dht_read => true
  | _ => false
  end.

Definition is_sleep (ev : event) : bool :=
  match ev with
  | time_sleep _ => true
  | _ => false
  end.

(** The number of calls of a class in a trace. *)
Definition calls (class : event -> bool) (evs : list event) : nat :=
  List.length (filter class evs).


(** The three readings are strings that count as true. *)
Definition all_present (self : AirMonitor) : Prop :=
  PyStr.truthy (temperature_celsius self) = true /\
  PyStr.truthy (temperature_fahrenheit self) = true /\
  PyStr.truthy (humidity self) = true.

(** The three-significant-digit presentation of the positive rational
    [num / den], computed without floats. *)
Definition exact_3g (num den : Z) : string :=
  let '(q, X) := Fmt.sig3 num den in
  Fmt.render (PyStr.rstrip "0" (Fmt.digits3 q)) X.

(** Tenths of a degree Celsius from 0.0 to 100.0: the text stored for the
    Fahrenheit value is the presentation of the exact [9n/50 + 32]. *)
Definition fahrenheit_text_exact (n : Z) : bool :=
  String.eqb (_FormatResult (_ctof (PyFloat.decimal n (-1))))
             (exact_3g (9 * n + 1600) 50).

Definition tenths : list Z := map Z.of_nat (seq 0 1001).

(** A configuration like [Sample.cfg] with other switches. *)
Definition switched (sensor_type display adafruit console : string) : Config :=
  {| UPDATE_INTERVAL := 10;
     ENV_SENSOR_TYPE := sensor_type;
     DHT11_PIN := 4;
     TEMPERATURE_CALIBRATION := PyFloat.decimal 5 (-1);
     HUMIDITY_CALIBRATION := PyFloat.of_Z (-1);
     DISPLAY_ENABLED := display;
     ADAFRUIT_IO_ENABLED := adafruit;
     UPLOAD_INTERVAL := 5;
     CONSOLE_ENABLED := console |}.

(** A world like [Sample.world] whose LCD driver cannot be constructed. *)
Definition no_lcd_world : World :=
  {| clock := fun _ => 0;
     str_datetime := PyStr.str_of_Z;
     sensor := fun _ => Ok (Sample.reading true);
     lcd_init := fun _ => Fails (Exception "no device on the bus");
     lcd_cleared := fun _ => Ok tt;
     lcd_written := fun _ _ _ => Ok tt;
     feeds := fun _ k => Ok (Sample.server_feed k);
     create_feed := fun _ k => Ok (Sample.server_feed k);
     send_data := fun _ _ _ => Ok tt;
     slept := fun _ _ => Ok tt |}.

(** A valid reading that the offsets of [Sample.cfg] bring to zero, and a
    world whose sensor returns it. *)
Definition zero_reading : DHT11Result :=
  {| is_valid := true;
     error_code := 0;
     temperature := PyFloat.decimal (-5) (-1);
     dht_humidity := PyFloat.of_Z 1 |}.

Definition zero_world : World :=
  {| clock := fun _ => 0;
     str_datetime := PyStr.str_of_Z;
     sensor := fun _ => Ok zero_reading;
     lcd_init := fun _ => Ok tt;
     lcd_cleared := fun _ => Ok tt;
     lcd_written := fun _ _ _ => Ok tt;
     feeds := fun _ k => Ok (Sample.server_feed k);
     create_feed := fun _ k => Ok (Sample.server_feed k);
     send_data := fun _ _ _ => Ok tt;
     slept := fun _ _ => Ok tt |}.


(** ** Further notions: the turns of the loop *)

(** A method never leaves a loop half unfolded: its outcome is a return or
    an exception. *)
Definition settles {A : Type} (c : M A) : Prop :=
  forall self h, fst (fst (c self h)) <> Running.

(** An instance constructed from the configuration [cfg]. *)
Definition constructed (cfg : Config) (self : AirMonitor) : Prop :=
  config self = cfg /\ dht_sensor self <> None.

(** Neither a sensor read nor a sleep. *)
Definition quiet (ev : event) : Prop :=
  is_sensor_read ev = false /\ is_sleep ev = false.

(** A sleep, if [ev] is one, lasts [UPDATE_INTERVAL] seconds. *)
Definition sleeps_for (cfg : Config) (ev : event) : Prop :=
  is_sleep ev = true -> ev = time_sleep (UPDATE_INTERVAL cfg).

(** What is left of a turn once the sensor has been read: no further read,
    and one sleep, the configured one, unless an exception comes first. *)
Definition ends_turn (cfg : Config) {A : Type} (c : M A) : Prop :=
  forall self h o self' h',
    constructed cfg self ->
    c self h = (o, self', h') ->
    constructed cfg self' /\ o <> Running /\
    exists evs,
      h' = (h ++ evs)%list /\
      calls is_sensor_read evs = 0%nat /\
      (calls is_sleep evs <= 1)%nat /\
      (forall a, o = Return a -> calls is_sleep evs = 1%nat) /\
      Forall (sleeps_for cfg) evs.

(** If [ev] is a send, what it sends is one of the values of [values]. *)
Definition sends_one_of (values : list (option string)) (ev : event) : Prop :=
  forall key value, ev = aio_send_data key value -> In (Some value) values.

(** * Properties *)

Section Respects.

Variable I : AirMonitor -> Prop.
Variable P : event -> Prop.

Lemma respects_ret {A : Type} (a : A) : respects I P (ret a).
Proof.
  intros self h o self' h' HI E. inversion E; subst.
  split; [assumption|]. exists []. now rewrite app_nil_r.
Qed.

Lemma respects_raise {A : Type} (e : exn) : respects I P (@raise A e).
Proof.
  intros self h o self' h' HI E. inversion E; subst.
  split; [assumption|]. exists []. now rewrite app_nil_r.
Qed.

Lemma respects_get_self : respects I P get_self.
Proof.
  intros self h o self' h' HI E. inversion E; subst.
  split; [assumption|]. exists []. now rewrite app_nil_r.
Qed.

Lemma respects_modify (f : AirMonitor -> AirMonitor) :
  (forall self, I self -> I (f self)) -> respects I P (modify f).
Proof.
  intros Hf self h o self' h' HI E. inversion E; subst.
  split; [auto|]. exists []. now rewrite app_nil_r.
Qed.

Lemma respects_emit (ev : event) : P ev -> respects I P (emit ev).
Proof.
  intros Hev self h o self' h' HI E. inversion E; subst.
  split; [assumption|]. exists [ev]. auto.
Qed.

Lemma respects_call {A : Type} (ev : event) (oracle : list event -> answer A) :
  P ev -> respects I P (call ev oracle).
Proof.
  intros Hev self h o self' h' HI E. unfold call in E.
  destruct (oracle h); inversion E; subst;
    (split; [assumption|]; exists [ev]; auto).
Qed.

Lemma respects_bind {A B : Type} (c : M A) (k : A -> M B) :
  respects I P c -> (forall a, respects I P (k a)) -> respects I P (bind c k).
Proof.
  intros Hc Hk self h o self' h' HI E. unfold bind in E.
  destruct (c self h) as [[o1 self1] h1] eqn:E1.
  destruct (Hc _ _ _ _ _ HI E1) as [HI1 [evs1 [-> F1]]].
  destruct o1 as [a| |].
  - destruct (Hk a _ _ _ _ _ HI1 E) as [HI2 [evs2 [-> F2]]].
    split; [assumption|]. exists (evs1 ++ evs2)%list.
    split; [now rewrite app_assoc | now apply Forall_app].
  - inversion E; subst. split; [assumption|]. now exists evs1.
  - inversion E; subst. split; [assumption|]. now exists evs1.
Qed.

Lemma respects_try_except {A : Type} (c : M A) (catches : exn -> bool)
    (handler : exn -> M A) :
  respects I P c -> (forall e, respects I P (handler e)) ->
  respects I P (try_except c catches handler).
Proof.
  intros Hc Hh self h o self' h' HI E. unfold try_except in E.
  destruct (c self h) as [[o1 self1] h1] eqn:E1.
  destruct (Hc _ _ _ _ _ HI E1) as [HI1 [evs1 [-> F1]]].
  destruct o1 as [a|e|].
  - inversion E; subst. split; [assumption|]. now exists evs1.
  - destruct (catches e).
    + destruct (Hh e _ _ _ _ _ HI1 E) as [HI2 [evs2 [-> F2]]].
      split; [assumption|]. exists (evs1 ++ evs2)%list.
      split; [now rewrite app_assoc | now apply Forall_app].
    + inversion E; subst. split; [assumption|]. now exists evs1.
  - inversion E; subst. split; [assumption|]. now exists evs1.
Qed.

Lemma respects_try_finally {A : Type} (c : M A) (fin : M unit) :
  respects I P c -> respects I P fin -> respects I P (try_finally c fin).
Proof.
  intros Hc Hf self h o self' h' HI E. unfold try_finally in E.
  destruct (c self h) as [[o1 self1] h1] eqn:E1.
  destruct (Hc _ _ _ _ _ HI E1) as [HI1 [evs1 [-> F1]]].
  destruct (fin self1 (h ++ evs1)%list) as [[o2 self2] h2] eqn:E2.
  destruct (Hf _ _ _ _ _ HI1 E2) as [HI2 [evs2 [-> F2]]].
  assert (G : I self2 /\ exists evs,
             ((h ++ evs1) ++ evs2 = h ++ evs)%list /\ Forall P evs).
  { split; [assumption|]. exists (evs1 ++ evs2)%list.
    split; [now rewrite app_assoc | now apply Forall_app]. }
  destruct o1 as [a|e|].
  - destruct o2; inversion E; subst; exact G.
  - destruct o2; inversion E; subst; exact G.
  - inversion E; subst. split; [assumption|]. now exists evs1.
Qed.

Lemma respects_for_each {A : Type} (xs : list A) (body : A -> M unit) :
  (forall x, respects I P (body x)) -> respects I P (for_each xs body).
Proof.
  intros Hb. induction xs as [|x xs IH]; simpl.
  - apply respects_ret.
  - apply respects_bind; auto.
Qed.

End Respects.

Ltac respects_step :=
  match goal with
  | |- respects _ _ (bind _ _) => apply respects_bind
  | |- respects _ _ (ret _) => apply respects_ret
  | |- respects _ _ (raise _) => apply respects_raise
  | |- respects _ _ get_self => apply respects_get_self
  | |- respects _ _ (try_except _ _ _) => apply respects_try_except
  | |- respects _ _ (try_finally _ _) => apply respects_try_finally
  | |- respects _ _ (for_each _ _) => apply respects_for_each
  | |- respects _ _ (if ?b then _ else _) => destruct b
  | |- respects _ _ (match ?x with Some _ => _ | None => _ end) => destruct x
  | |- respects _ _ (let '(_, _) := ?p in _) => destruct p
  | |- forall _, _ => intro
  end.

Section MethodsRespect.

Variable w : World.
Variable I : AirMonitor -> Prop.
Variable P : event -> Prop.

Hypothesis P_any : forall ev, is_GPIO_cleanup ev = false -> P ev.
Hypothesis I_upload : forall t self,
    I self -> I (set_adafruit_last_upload t self).
Hypothesis I_sample : forall r self,
    is_valid r = true -> I self ->
    I (set_readings
         (Some (_FormatResult
            (PyFloat.add (temperature r)
                         (TEMPERATURE_CALIBRATION (config self)))))
         (Some (_FormatResult
            (_ctof (PyFloat.add (temperature r)
                                (TEMPERATURE_CALIBRATION (config self))))))
         (Some (_FormatResult
            (PyFloat.add (dht_humidity r)
                         (HUMIDITY_CALIBRATION (config self)))))
         self).

Ltac leaf :=
  first [ apply respects_call; apply P_any; reflexivity
        | apply respects_emit; apply P_any; reflexivity
        | apply respects_modify; auto ].

Lemma now_respects : respects I P (now w).
Proof. unfold now. leaf. Qed.

Lemma Log_respects (message : string) : respects I P (Log message).
Proof. unfold Log. repeat respects_step; leaf. Qed.

Lemma GetValueDict_respects : respects I P GetValueDict.
Proof. unfold GetValueDict. repeat respects_step. Qed.

Lemma upload_value_respects (kv : string * option string) :
  respects I P (upload_value w kv).
Proof. unfold upload_value. repeat respects_step; leaf. Qed.

Lemma upload_due_respects : respects I P (upload_due w).
Proof.
  unfold upload_due. repeat respects_step; try apply now_respects.
Qed.

Lemma upload_pass_respects : respects I P (upload_pass w).
Proof.
  unfold upload_pass.
  repeat respects_step;
    first [ apply GetValueDict_respects | apply upload_value_respects
          | apply now_respects | leaf ].
Qed.

Lemma AdafruitUpload_respects : respects I P (AdafruitUpload w).
Proof.
  unfold AdafruitUpload.
  repeat respects_step;
    first [ apply upload_due_respects | apply upload_pass_respects ].
Qed.

Lemma DHT11Read_respects : respects I P (DHT11Read w).
Proof.
  unfold DHT11Read. apply respects_bind; [leaf|]. intros r.
  destruct (is_valid r) eqn:V.
  - apply respects_modify. intros self HI. now apply I_sample.
  - apply Log_respects.
Qed.

Lemma GetEnvironmentMetrics_respects : respects I P (GetEnvironmentMetrics w).
Proof.
  unfold GetEnvironmentMetrics.
  repeat respects_step; apply DHT11Read_respects.
Qed.

Lemma LogResults_respects : respects I P (LogResults w).
Proof.
  unfold LogResults.
  repeat respects_step;
    first [ apply now_respects | apply Log_respects ].
Qed.

Lemma UpdateLCDDisplay_respects : respects I P (UpdateLCDDisplay w).
Proof.
  unfold UpdateLCDDisplay.
  repeat respects_step; first [ apply now_respects | leaf ].
Qed.

Lemma Run_iteration_respects : respects I P (Run_iteration w).
Proof.
  unfold Run_iteration.
  repeat respects_step;
    first [ apply GetEnvironmentMetrics_respects | apply LogResults_respects
          | apply UpdateLCDDisplay_respects | apply AdafruitUpload_respects
          | leaf ].
Qed.

Lemma Run_respects (n : nat) : respects I P (Run w n).
Proof.
  induction n as [|n IH]; simpl.
  - intros self h o self' h' HI E. inversion E; subst.
    split; [assumption|]. exists []. now rewrite app_nil_r.
  - apply respects_bind; [apply Run_iteration_respects | auto].
Qed.

End MethodsRespect.

(** ** Formatting *)

Lemma rstrip_last (c : ascii) (s : string) :
  PyStr.last_char (PyStr.rstrip c s) <> Some c.
Proof.
  induction s as [|a s IH]; simpl; [discriminate|].
  destruct (PyStr.rstrip c s) as [|b t] eqn:E.
  - destruct (Ascii.eqb a c) eqn:Eac; simpl; [discriminate|].
    intros H. inversion H; subst. now rewrite Ascii.eqb_refl in Eac.
  - exact IH.
Qed.

Lemma rstrip_id (c : ascii) (s : string) :
  PyStr.last_char s <> Some c -> PyStr.rstrip c s = s.
Proof.
  induction s as [|a s IH]; simpl; [reflexivity|].
  destruct s as [|b t].
  - simpl. intros H. destruct (Ascii.eqb a c) eqn:Eac; [|reflexivity].
    apply Ascii.eqb_eq in Eac. subst. now contradiction H.
  - intros H. rewrite (IH H). reflexivity.
Qed.

(** Whatever the float, the formatted value does not end in a zero after a
    decimal point. *)
Lemma FormatResult_no_trailing_zero (x : PyFloat.float) :
  PyStr.contains "." (_FormatResult x) = true ->
  PyStr.last_char (_FormatResult x) <> Some "0"%char.
Proof.
  unfold _FormatResult.
  destruct (PyStr.contains "." (Fmt.format_3g x)) eqn:E.
  - intros _. apply rstrip_last.
  - intros H. rewrite E in H. discriminate.
Qed.

(** Formatting alters the three-digit presentation exactly when that has a
    decimal point and ends in a zero. *)
Lemma FormatResult_changed_iff (x : PyFloat.float) :
  _FormatResult x <> Fmt.format_3g x <->
  PyStr.contains "." (Fmt.format_3g x) = true /\
  PyStr.last_char (Fmt.format_3g x) = Some "0"%char.
Proof.
  unfold _FormatResult.
  destruct (PyStr.contains "." (Fmt.format_3g x)) eqn:E; split.
  - intros H. split; [reflexivity|].
    destruct (PyStr.last_char (Fmt.format_3g x)) as [c|] eqn:L.
    + destruct (Ascii.eqb c "0") eqn:Ec.
      * apply Ascii.eqb_eq in Ec. now subst.
      * exfalso. apply H, rstrip_id. rewrite L. intros Hc. inversion Hc; subst.
        now rewrite Ascii.eqb_refl in Ec.
    + exfalso. apply H, rstrip_id. rewrite L. discriminate.
  - intros [_ L] H. apply (rstrip_last "0" (Fmt.format_3g x)).
    now rewrite H.
  - intros H. now contradiction H.
  - intros [H _]. discriminate H.
Qed.

Lemma kept_spec (v : string) :
  kept v = true ->
  (if PyStr.contains "." v then PyStr.rstrip "0" v else v) = v.
Proof.
  unfold kept. destruct (PyStr.contains "." v); [|reflexivity].
  intros H. apply rstrip_id.
  destruct (PyStr.last_char v) as [c|]; [|discriminate].
  intros E. inversion E; subst. discriminate.
Qed.

Lemma digit_in (d : Z) : In (Fmt.digit d) Fmt.digit_chars.
Proof.
  unfold Fmt.digit.
  destruct (nth_in_or_default (Z.to_nat d) Fmt.digit_chars "0"%char)
    as [H | ->]; [exact H | now left].
Qed.

Lemma plain_presentations_kept_true : plain_presentations_kept = true.
Proof. vm_compute. reflexivity. Qed.

(** Where the three-digit presentation has no exponent field, formatting
    returns it unchanged: the stripping of zeros can only bite on an
    exponent field. *)
Lemma FormatResult_plain_unchanged (x : PyFloat.float) :
  Fmt.uses_exponent x = false -> _FormatResult x = Fmt.format_3g x.
Proof.
  unfold _FormatResult. intros U. apply kept_spec.
  destruct x as [s|s| |s m e]; try (destruct s; reflexivity); try reflexivity.
  unfold Fmt.uses_exponent in U. unfold Fmt.format_3g, Fmt.g3.
  destruct (if 0 <=? e then (Z.pos m * 2 ^ e, 1) else (Z.pos m, 2 ^ (- e)))
    as [num den].
  destruct (Fmt.sig3 num den) as [q X].
  apply orb_false_iff in U. destruct U as [U1 U2].
  apply Z.ltb_ge in U1. apply Z.leb_gt in U2.
  pose proof plain_presentations_kept_true as K.
  unfold plain_presentations_kept in K.
  rewrite forallb_forall in K.
  assert (Hs : In s [true; false]) by (destruct s; simpl; auto).
  specialize (K s Hs). rewrite forallb_forall in K.
  specialize (K _ (digit_in (q / 100))). rewrite forallb_forall in K.
  specialize (K _ (digit_in ((q / 10) mod 10))). rewrite forallb_forall in K.
  specialize (K _ (digit_in (q mod 10))). rewrite forallb_forall in K.
  apply K.
  assert (HX : X = -4 \/ X = -3 \/ X = -2 \/ X = -1 \/ X = 0 \/ X = 1 \/ X = 2)
    by lia.
  simpl. intuition.
Qed.

(** C3.  The three stated examples hold: 21.0 gives "21", 21.456 gives
    "21.5", 0.0 gives "0".  But where the three-digit presentation carries
    an exponent field after a decimal point, the zeros stripped are those of
    the exponent: 1.5e10 is presented as "1.5e+10" and formatted as
    "1.5e+1", the text of the number 15; likewise 1.5e-10 becomes
    "1.5e-1". *)
Theorem FormatResult_strips_exponent_zeros :
  _FormatResult (PyFloat.decimal 21 0) = "21" /\
  _FormatResult (PyFloat.decimal 21456 (-3)) = "21.5" /\
  _FormatResult (PyFloat.decimal 0 0) = "0" /\
  PyFloat.is_finite (PyFloat.decimal 15 9) = true /\
  Fmt.format_3g (PyFloat.decimal 15 9) = "1.5e+10" /\
  _FormatResult (PyFloat.decimal 15 9) = "1.5e+1" /\
  _FormatResult (PyFloat.decimal 15 0) = "15" /\
  Fmt.format_3g (PyFloat.decimal 15 (-11)) = "1.5e-10" /\
  _FormatResult (PyFloat.decimal 15 (-11)) = "1.5e-1".
Proof. repeat split; vm_compute; reflexivity. Qed.

(** ** Reading the sensor *)

(** C4.  On a valid raw reading [DHT11Read] adds the configured temperature
    offset to the raw temperature and the configured humidity offset to the
    raw humidity, computes Fahrenheit as [(c * (9/5)) + 32] from the
    calibrated Celsius value before it is formatted, and stores the three
    values formatted.  For the raw reading (22.0, 50.0) and the offsets
    (+0.5, -1.0) the stored values are "22.5", "72.5" and "49". *)
Theorem DHT11Read_valid_stores_calibrated :
  forall (w : World) (self : AirMonitor) (h : list event) (r : DHT11Result),
    sensor w h = Ok r ->
    is_valid r = true ->
    let c := PyFloat.add (temperature r)
                         (TEMPERATURE_CALIBRATION (config self)) in
    let hu := PyFloat.add (dht_humidity r)
                          (HUMIDITY_CALIBRATION (config self)) in
    let f := PyFloat.add
               (PyFloat.mul c (PyFloat.div (PyFloat.of_Z 9) (PyFloat.of_Z 5)))
               (PyFloat.of_Z 32) in
    DHT11Read w self h
      = (Return tt,
         set_readings (Some (_FormatResult c)) (Some (_FormatResult f))
                      (Some (_FormatResult hu)) self,
         (h ++ [dht_read])%list)
    /\ (temperature r = PyFloat.of_Z 22 ->
        dht_humidity r = PyFloat.of_Z 50 ->
        TEMPERATURE_CALIBRATION (config self) = PyFloat.decimal 5 (-1) ->
        HUMIDITY_CALIBRATION (config self) = PyFloat.of_Z (-1) ->
        _FormatResult c = "22.5" /\
        _FormatResult f = "72.5" /\
        _FormatResult hu = "49").
Proof.
  intros w self h r Hs Hv c hu f. split.
  - unfold DHT11Read, bind, call, modify. rewrite Hs, Hv. reflexivity.
  - intros Ht Hh Hct Hch. subst c hu f. rewrite Ht, Hh, Hct, Hch.
    repeat split; vm_compute; reflexivity.
Qed.

Lemma DHT11Read_valid_stores_calibrated_witness :
  DHT11Read (Sample.world 0 true [] [] 100) (Sample.fresh None) []
  = (Return tt, Sample.sampled None, [dht_read]).
Proof.
  destruct (DHT11Read_valid_stores_calibrated
              (Sample.world 0 true [] [] 100) (Sample.fresh None) []
              (Sample.reading true) eq_refl eq_refl) as [E Hex].
  destruct (Hex eq_refl eq_refl eq_refl eq_refl) as [Hc [Hf Hh]].
  rewrite E. unfold set_readings. rewrite Hc, Hf, Hh. reflexivity.
Defined.

(** C6.  When the driver reports the reading invalid, [DHT11Read] only
    logs the error code: the instance, and with it the celsius, fahrenheit
    and humidity values held before, is unchanged. *)
Theorem DHT11Read_invalid_keeps_readings :
  forall (w : World) (self : AirMonitor) (h : list event) (r : DHT11Result),
    sensor w h = Ok r ->
    is_valid r = false ->
    let message := "DHT11 Error: " ++ PyStr.str_of_Z (error_code r) in
    DHT11Read w self h = Log message self (h ++ [dht_read])%list
    /\ forall o self' h',
        DHT11Read w self h = (o, self', h') ->
        o = Return tt /\
        self' = self /\
        temperature_celsius self' = temperature_celsius self /\
        temperature_fahrenheit self' = temperature_fahrenheit self /\
        humidity self' = humidity self /\
        h' = (h ++ dht_read ::
                (if enabled (CONSOLE_ENABLED (config self))
                 then [print message] else []))%list.
Proof.
  intros w self h r Hs Hv message.
  assert (E : DHT11Read w self h = Log message self (h ++ [dht_read])%list).
  { unfold DHT11Read, bind, call. rewrite Hs, Hv. reflexivity. }
  split; [exact E|].
  intros o self' h'. rewrite E. unfold Log, bind, get_self, emit, ret.
  destruct (enabled (CONSOLE_ENABLED (config self)));
    intros H; inversion H; subst; repeat split; auto.
  all: rewrite <- app_assoc; reflexivity.
Qed.

Lemma DHT11Read_invalid_keeps_readings_witness :
  DHT11Read (Sample.world 0 false [] [] 100) (Sample.sampled None) []
  = (Return tt, Sample.sampled None, [dht_read; print "DHT11 Error: 2"]).
Proof.
  destruct (DHT11Read_invalid_keeps_readings
              (Sample.world 0 false [] [] 100) (Sample.sampled None) []
              (Sample.reading false) eq_refl eq_refl) as [_ H].
  destruct (DHT11Read (Sample.world 0 false [] [] 100)
              (Sample.sampled None) []) as [[o self'] h'] eqn:E.
  destruct (H o self' h' eq_refl) as [-> [-> [_ [_ [_ ->]]]]].
  reflexivity.
Defined.

(** ** The upload gate and the publish pass *)

Lemma lookups_app (xs ys : list event) :
  lookups (xs ++ ys) = (lookups xs ++ lookups ys)%list.
Proof.
  induction xs as [|x xs IH]; simpl; [reflexivity|].
  destruct x; simpl; rewrite ?IH; reflexivity.
Qed.

Lemma upload_due_eq (w : World) (self : AirMonitor) (h : list event) :
  upload_due w self h =
    match adafruit_last_upload self with
    | None => (Return true, self, h)
    | Some last =>
        (Return (last + timedelta_minutes (UPLOAD_INTERVAL (config self))
                 <=? clock w h),
         self, (h ++ [datetime_now])%list)
    end.
Proof.
  unfold upload_due, bind, get_self.
  destruct (adafruit_last_upload self); reflexivity.
Qed.

Lemma AdafruitUpload_eq (w : World) (self : AirMonitor) (h : list event) :
  AdafruitUpload w self h =
    if enabled (ADAFRUIT_IO_ENABLED (config self)) then
      match upload_due w self h with
      | (Return true, self1, h1) => upload_pass w self1 h1
      | (Return false, self1, h1) => (Return tt, self1, h1)
      | (Raise e, self1, h1) => (Raise e, self1, h1)
      | (Running, self1, h1) => (Running, self1, h1)
      end
    else (Return tt, self, h).
Proof.
  unfold AdafruitUpload, bind, get_self.
  destruct (enabled (ADAFRUIT_IO_ENABLED (config self))); [|reflexivity].
  destruct (upload_due w self h) as [[[[|]| |] self1] h1]; reflexivity.
Qed.

Lemma upload_pass_eq (w : World) (self : AirMonitor) (h : list event) :
  upload_pass w self h =
    match for_each [("fahrenheit", temperature_fahrenheit self);
                    ("celsius", temperature_celsius self);
                    ("humidity", humidity self)]
                   (upload_value w) self h with
    | (Return _, self1, h1) =>
        (Return tt, set_adafruit_last_upload (Some (clock w h1)) self1,
         (h1 ++ [datetime_now])%list)
    | (Raise e, self1, h1) => (Raise e, self1, h1)
    | (Running, self1, h1) => (Running, self1, h1)
    end.
Proof.
  unfold upload_pass, GetValueDict. unfold bind at 1 2. unfold get_self, ret.
  unfold bind at 1.
  destruct (for_each _ (upload_value w) self h) as [[[[]| |] self1] h1];
    reflexivity.
Qed.

(** One turn of the loop over the value dict: the instance is untouched,
    the key is looked up exactly when its value is true, and an exception
    is the one of the last call made. *)
Lemma upload_value_shape (w : World) (k : string) (v : option string)
    (self : AirMonitor) (h : list event) o self' h' :
  upload_value w (k, v) self h = (o, self', h') ->
  self' = self /\ o <> Running /\
  exists evs,
    h' = (h ++ evs)%list /\
    lookups evs = (if PyStr.truthy v then [k] else []) /\
    (forall e, o = Raise e ->
       exists evs0 ev, evs = (evs0 ++ [ev])%list /\ fails_at w (h ++ evs0) ev e).
Proof.
  unfold upload_value, bind, try_except, call, ret.
  destruct (PyStr.truthy v).
  2:{ intros E; inversion E; subst. repeat split; [discriminate|].
      exists []. rewrite app_nil_r. repeat split. discriminate. }
  destruct (feeds w h k) as [fd|e1] eqn:Ef.
  - destruct (send_data w (h ++ [aio_feeds k]) (feed_key fd) (PyStr.fstr v))
      as [[]|e2] eqn:Es; intros E; inversion E; subst;
      (repeat split; [discriminate|]);
      exists [aio_feeds k; aio_send_data (feed_key fd) (PyStr.fstr v)];
      (split; [now rewrite <- app_assoc|]); (split; [reflexivity|]).
    + discriminate.
    + intros e He; inversion He; subst.
      exists [aio_feeds k], (aio_send_data (feed_key fd) (PyStr.fstr v)).
      split; [reflexivity | exact Es].
  - destruct (is_RequestError e1) eqn:Er.
    + destruct (create_feed w (h ++ [aio_feeds k]) k) as [fd|e2] eqn:Ec.
      * destruct (send_data w ((h ++ [aio_feeds k]) ++ [aio_create_feed k])
                    (feed_key fd) (PyStr.fstr v)) as [[]|e3] eqn:Es;
          intros E; inversion E; subst;
          (repeat split; [discriminate|]);
          exists [aio_feeds k; aio_create_feed k;
                  aio_send_data (feed_key fd) (PyStr.fstr v)];
          (split; [now rewrite <- !app_assoc|]); (split; [reflexivity|]).
        -- discriminate.
        -- intros e He; inversion He; subst.
           exists [aio_feeds k; aio_create_feed k],
                  (aio_send_data (feed_key fd) (PyStr.fstr v)).
           split; [reflexivity|]. simpl.
           replace (h ++ [aio_feeds k; aio_create_feed k])%list
             with ((h ++ [aio_feeds k]) ++ [aio_create_feed k])%list
             by now rewrite <- app_assoc.
           exact Es.
      * intros E; inversion E; subst. repeat split; [discriminate|].
        exists [aio_feeds k; aio_create_feed k].
        split; [now rewrite <- app_assoc|]. split; [reflexivity|].
        intros e He; inversion He; subst.
        exists [aio_feeds k], (aio_create_feed k).
        split; [reflexivity | exact Ec].
    + intros E; inversion E; subst. repeat split; [discriminate|].
      exists [aio_feeds k]. split; [reflexivity|]. split; [reflexivity|].
      intros e He; inversion He; subst.
      exists [], (aio_feeds k). rewrite app_nil_r.
      split; [reflexivity | split; assumption].
Qed.

(** The loop over the value dict stops at the first exception. *)
Lemma publish_shape (w : World) (values : list (string * option string)) :
  forall (self : AirMonitor) (h : list event) o self' h',
    for_each values (upload_value w) self h = (o, self', h') ->
    self' = self /\ o <> Running /\
    exists evs,
      h' = (h ++ evs)%list /\
      prefix (lookups evs) (wanted_keys values) /\
      (o = Return tt -> lookups evs = wanted_keys values) /\
      (forall e, o = Raise e ->
         exists evs0 ev,
           evs = (evs0 ++ [ev])%list /\ fails_at w (h ++ evs0) ev e).
Proof.
  induction values as [|[k v] values IH]; intros self h o self' h' E.
  - inversion E; subst. repeat split; [discriminate|].
    exists []. rewrite app_nil_r. repeat split.
    + now exists [].
    + discriminate.
  - cbn [for_each] in E. unfold bind in E.
    destruct (upload_value w (k, v) self h) as [[o1 self1] h1] eqn:E1.
    destruct (upload_value_shape _ _ _ _ _ _ _ _ E1)
      as [-> [Hrun [evs1 [-> [L1 F1]]]]].
    destruct o1 as [[]|e1|].
    + destruct (IH _ _ _ _ _ E) as [-> [Hrun2 [evs2 [-> [[rest P2] [R2 F2]]]]]].
      repeat split; [assumption|].
      exists (evs1 ++ evs2)%list. split; [now rewrite app_assoc|].
      rewrite lookups_app, L1. simpl.
      split; [|split].
      * exists rest. destruct (PyStr.truthy v); simpl; now rewrite P2.
      * intros Ho. rewrite (R2 Ho). now destruct (PyStr.truthy v).
      * intros e He. destruct (F2 e He) as [evs0 [ev [-> Fa]]].
        exists (evs1 ++ evs0)%list, ev.
        split; [now rewrite app_assoc|]. now rewrite app_assoc.
    + inversion E; subst. repeat split; [discriminate|].
      exists evs1. split; [reflexivity|]. rewrite L1. split; [|split].
      * simpl. destruct (PyStr.truthy v).
        -- now exists (wanted_keys values).
        -- now exists (wanted_keys values).
      * discriminate.
      * exact F1.
    + now contradiction Hrun.
Qed.

(** A publish pass either serves every wanted channel and then records the
    clock, or stops at the call that raised and records nothing. *)
Lemma upload_pass_shape (w : World) (self : AirMonitor) (h : list event)
    o self' h' :
  upload_pass w self h = (o, self', h') ->
  exists evs,
    prefix (lookups evs) (wanted self) /\
    match o with
    | Return _ =>
        h' = (h ++ evs ++ [datetime_now])%list /\
        self' = set_adafruit_last_upload (Some (clock w (h ++ evs))) self /\
        lookups evs = wanted self
    | Raise e =>
        h' = (h ++ evs)%list /\ self' = self /\
        exists evs0 ev,
          evs = (evs0 ++ [ev])%list /\ fails_at w (h ++ evs0) ev e
    | Running => False
    end.
Proof.
  rewrite upload_pass_eq.
  destruct (for_each _ (upload_value w) self h) as [[o1 self1] h1] eqn:E1.
  destruct (publish_shape _ _ _ _ _ _ _ E1)
    as [-> [Hrun [evs [-> [Hp [Hr Hf]]]]]].
  destruct o1 as [[]|e|]; intros E; inversion E; subst; exists evs;
    (split; [exact Hp|]).
  - split; [now rewrite app_assoc|]. split; [reflexivity|]. now apply Hr.
  - split; [reflexivity|]. split; [reflexivity|]. now apply Hf.
  - now apply Hrun.
Qed.






(** The calls of one [AdafruitUpload]: the channels looked up are a prefix
    of the wanted ones, and an exception is the one of the last call. *)
Lemma AdafruitUpload_shape :
  forall (w : World) (self : AirMonitor) (h : list event),
    let '(o, self', h') := AdafruitUpload w self h in
    exists evs,
      h' = (h ++ evs)%list /\
      prefix (lookups evs) (wanted self) /\
      (forall e, o = Raise e ->
         self' = self /\
         exists evs0 ev,
           evs = (evs0 ++ [ev])%list /\ fails_at w (h ++ evs0) ev e) /\
      (o = Return tt ->
       enabled (ADAFRUIT_IO_ENABLED (config self)) = true ->
       fst (fst (upload_due w self h)) = Return true ->
       lookups evs = wanted self) /\
      (In "celsius" (lookups evs) ->
       PyStr.truthy (temperature_fahrenheit self) = true ->
       In "fahrenheit" (lookups evs)).
Proof.
  intros w self h.
  assert (Hord : forall evs,
             prefix (lookups evs) (wanted self) ->
             In "celsius" (lookups evs) ->
             PyStr.truthy (temperature_fahrenheit self) = true ->
             In "fahrenheit" (lookups evs)).
  { intros evs [rest Hp] Hin Ht. unfold wanted in Hp. simpl in Hp.
    rewrite Ht in Hp. destruct (lookups evs) as [|k ks]; [destruct Hin|].
    inversion Hp; subst. now left. }
  rewrite AdafruitUpload_eq.
  destruct (enabled (ADAFRUIT_IO_ENABLED (config self))).
  2:{ exists []. rewrite app_nil_r. split; [reflexivity|].
      split; [now exists (wanted self)|].
      repeat split; try discriminate. intros []. }
  rewrite upload_due_eq.
  destruct (adafruit_last_upload self) as [last|].
  - destruct (last + timedelta_minutes (UPLOAD_INTERVAL (config self))
              <=? clock w h) eqn:Hle.
    + destruct (upload_pass w self (h ++ [datetime_now])%list)
        as [[o self'] h'] eqn:E.
      destruct (upload_pass_shape _ _ _ _ _ _ E) as [evs [Hp H]].
      destruct o as [[]|e|].
      * destruct H as [-> [-> Hl]].
        exists (datetime_now :: evs ++ [datetime_now])%list.
        assert (L : lookups (datetime_now :: evs ++ [datetime_now])
                    = lookups evs).
        { simpl. rewrite lookups_app. simpl. now rewrite app_nil_r. }
        rewrite L. split; [now rewrite <- app_assoc|].
        split; [exact Hp|]. split; [discriminate|]. split; [now intros|].
        now apply Hord.
      * destruct H as [-> [-> [evs0 [ev [-> Hf]]]]].
        exists (datetime_now :: evs0 ++ [ev])%list.
        split; [now rewrite <- app_assoc|].
        split; [exact Hp|]. split; [|split].
        -- intros e' He'; inversion He'; subst. split; [reflexivity|].
           exists (datetime_now :: evs0)%list, ev. split; [reflexivity|].
           replace (h ++ datetime_now :: evs0)%list
             with ((h ++ [datetime_now]) ++ evs0)%list
             by now rewrite <- app_assoc.
           exact Hf.
        -- discriminate.
        -- now apply (Hord (datetime_now :: evs0 ++ [ev])%list).
      * destruct H.
    + exists [datetime_now]. split; [reflexivity|].
      split; [now exists (wanted self)|].
      repeat split; try discriminate. intros [].
  - destruct (upload_pass w self h) as [[o self'] h'] eqn:E.
    destruct (upload_pass_shape _ _ _ _ _ _ E) as [evs [Hp H]].
    destruct o as [[]|e|].
    + destruct H as [-> [-> Hl]]. exists (evs ++ [datetime_now])%list.
      assert (L : lookups (evs ++ [datetime_now]) = lookups evs).
      { rewrite lookups_app. simpl. now rewrite app_nil_r. }
      rewrite L. split; [reflexivity|].
      split; [exact Hp|]. split; [discriminate|]. split; [now intros|].
      now apply Hord.
    + destruct H as [-> [-> Hf]]. exists evs. split; [reflexivity|].
      split; [exact Hp|]. split; [|split].
      * intros e' He'; inversion He'; subst. now split.
      * discriminate.
      * now apply Hord.
    + destruct H.
Qed.



Lemma wanted_NoDup (self : AirMonitor) : NoDup (wanted self).
Proof.
  unfold wanted, wanted_keys.
  destruct (PyStr.truthy (temperature_fahrenheit self));
    destruct (PyStr.truthy (temperature_celsius self));
    destruct (PyStr.truthy (humidity self));
    repeat constructor; simpl; intuition discriminate.
Qed.

(** C8.  When the lookup of a channel raises [RequestError], a channel of
    that name is created and the value is sent once, under the key of the
    channel just created: the turn makes the three calls lookup, create,
    send and no other, and its outcome is the outcome of that one send.
    No channel is looked up a second time in the same cycle. *)
Theorem upload_value_creates_then_sends_once :
  forall (w : World) (self : AirMonitor) (h : list event)
         (key value : string) (created : Feed),
    PyStr.truthy (Some value) = true ->
    feeds w h key = Fails RequestError ->
    create_feed w (h ++ [aio_feeds key]) key = Ok created ->
    (let '(o, self', h') := upload_value w (key, Some value) self h in
     h' = (h ++ [aio_feeds key; aio_create_feed key;
                 aio_send_data (feed_key created) value])%list /\
     sends_to (feed_key created)
              [aio_feeds key; aio_create_feed key;
               aio_send_data (feed_key created) value] = [value] /\
     self' = self /\
     o = outcome_of (send_data w (h ++ [aio_feeds key; aio_create_feed key])
                               (feed_key created) value))
    /\ forall (m : AirMonitor) (h0 : list event) o m' evs,
         AdafruitUpload w m h0 = (o, m', (h0 ++ evs)%list) ->
         NoDup (lookups evs).
Proof.
  intros w self h key value created Ht Hf Hc. split.
  - unfold upload_value, bind, try_except, call. rewrite Ht, Hf. simpl.
    rewrite Hc.
    replace ((h ++ [aio_feeds key]) ++ [aio_create_feed key])%list
      with (h ++ [aio_feeds key; aio_create_feed key])%list
      by now rewrite <- app_assoc.
    simpl. rewrite String.eqb_refl.
    destruct (send_data w (h ++ [aio_feeds key; aio_create_feed key])
                (feed_key created) value) as [[]|e];
      (split; [now rewrite <- app_assoc | repeat split]).
  - intros m h0 o m' evs E.
    pose proof (AdafruitUpload_shape w m h0) as H.
    rewrite E in H. destruct H as [evs' [Heq [[rest Hp] _]]].
    apply app_inv_head in Heq. subst evs'.
    pose proof (wanted_NoDup m) as N. rewrite Hp in N.
    now apply NoDup_app_remove_r in N.
Qed.

Lemma upload_value_creates_then_sends_once_witness :
  PyStr.truthy (Some "49") = true /\
  feeds (Sample.world 777 true ["humidity"] [] 100) [] "humidity"
  = Fails RequestError /\
  upload_value (Sample.world 777 true ["humidity"] [] 100)
               ("humidity", Some "49") (Sample.sampled None) []
  = (Return tt, Sample.sampled None,
     [aio_feeds "humidity"; aio_create_feed "humidity";
      aio_send_data "humidity" "49"]).
Proof.
  split; [reflexivity|]. split; [reflexivity|].
  pose proof (upload_value_creates_then_sends_once
                (Sample.world 777 true ["humidity"] [] 100)
                (Sample.sampled None) [] "humidity" "49"
                (Sample.server_feed "humidity")
                eq_refl eq_refl eq_refl) as H.
  destruct (upload_value (Sample.world 777 true ["humidity"] [] 100)
              ("humidity", Some "49") (Sample.sampled None) [])
    as [[o self'] h'].
  destruct H as [[-> [_ [-> ->]]] _]. reflexivity.
Defined.



(** ** The readings are all present or all absent *)

Lemma reading_atomic_upload (t : option datetime) (self : AirMonitor) :
  reading_atomic self -> reading_atomic (set_adafruit_last_upload t self).
Proof. intros H. exact H. Qed.

Lemma reading_atomic_sample (r : DHT11Result) (self : AirMonitor) :
  is_valid r = true ->
  reading_atomic self ->
  reading_atomic
    (set_readings
       (Some (_FormatResult
          (PyFloat.add (temperature r)
                       (TEMPERATURE_CALIBRATION (config self)))))
       (Some (_FormatResult
          (_ctof (PyFloat.add (temperature r)
                              (TEMPERATURE_CALIBRATION (config self))))))
       (Some (_FormatResult
          (PyFloat.add (dht_humidity r)
                       (HUMIDITY_CALIBRATION (config self)))))
       self).
Proof.
  intros V _. right. exists r. split; [exact V|]. repeat split.
Qed.

Lemma Cleanup_respects (I : AirMonitor -> Prop) :
  respects I (fun _ => True) Cleanup.
Proof.
  unfold Cleanup, Log. repeat respects_step;
    first [ now apply respects_emit | apply respects_ret ].
Qed.

Lemma perform_atomic (w : World) (op : operation) :
  respects reading_atomic (fun _ => True) (perform w op).
Proof.
  assert (T : forall ev, is_GPIO_cleanup ev = false -> True) by auto.
  destruct op; simpl.
  - apply Run_respects;
      auto using reading_atomic_upload, reading_atomic_sample.
  - apply AdafruitUpload_respects; auto using reading_atomic_upload.
  - apply Cleanup_respects.
  - apply DHT11Read_respects; auto using reading_atomic_sample.
  - apply GetEnvironmentMetrics_respects; auto using reading_atomic_sample.
  - apply LogResults_respects; auto.
  - apply UpdateLCDDisplay_respects; auto.
Qed.

Lemma init_respects (w : World) (I : AirMonitor -> Prop)
    (P : event -> Prop) :
  (forall ev, is_GPIO_cleanup ev = false -> P ev) ->
  (forall self, I self -> I (set_readings None None None self)) ->
  (forall pin self, I self -> I (set_dht_sensor pin self)) ->
  (forall t self, I self -> I (set_adafruit_last_upload t self)) ->
  respects I P (__init__ w).
Proof.
  intros HP H1 H2 H3. unfold __init__, SetupSesnors.
  repeat respects_step;
    first [ apply respects_modify; auto
          | apply respects_emit; apply HP; reflexivity
          | apply respects_call; apply HP; reflexivity ].
Qed.

Lemma init_atomic (w : World) (cfg : Config) (h0 : list event)
    o (monitor : AirMonitor) (h : list event) :
  __init__ w (blank cfg) h0 = (o, monitor, h) -> reading_atomic monitor.
Proof.
  intros E.
  assert (B : reading_atomic (blank cfg)) by (left; repeat split).
  refine (proj1 (init_respects w reading_atomic (fun _ => True)
                   _ _ _ _ _ _ _ _ _ B E)); auto.
  intros self _. left. repeat split.
Qed.

(** C7.  On an instance as the constructor leaves it, after any sequence of
    method calls, whatever their outcomes, the celsius, fahrenheit and
    humidity attributes are all [None] or all three the formatted values of
    one valid sample: never a part of a reading. *)
Theorem readings_all_or_none :
  forall (w : World) (cfg : Config) (h0 : list event)
         (monitor : AirMonitor) (h : list event) (ops : list operation),
    __init__ w (blank cfg) h0 = (Return tt, monitor, h) ->
    reading_atomic (fst (perform_all w ops monitor h)).
Proof.
  intros w cfg h0 monitor h ops E.
  pose proof (init_atomic _ _ _ _ _ _ E) as HI. clear E.
  revert monitor h HI.
  induction ops as [|op ops IH]; intros self h HI; simpl; [exact HI|].
  destruct (perform w op self h) as [[o self'] h'] eqn:Ep.
  apply IH. now destruct (perform_atomic w op _ _ _ _ _ HI Ep).
Qed.

Lemma readings_all_or_none_witness :
  reading_atomic
    (fst (perform_all (Sample.world 0 true [] ["celsius"] 100)
            [op_LogResults; op_DHT11Read; op_AdafruitUpload; op_Run 2;
             op_Cleanup]
            (Sample.fresh None)
            [GPIO_setwarnings true; GPIO_setmode_BCM; lcd_new])).
Proof.
  apply (readings_all_or_none (Sample.world 0 true [] ["celsius"] 100)
           Sample.cfg []).
  reflexivity.
Defined.

(** ** Leaving the main loop *)



(** The loop has no exit: a finite prefix of it is running or has raised. *)
Lemma Run_never_returns (w : World) (n : nat) :
  forall self h a, fst (fst (Run w n self h)) <> Return a.
Proof.
  induction n as [|n IH]; intros self h a; simpl; [discriminate|].
  unfold bind. destruct (Run_iteration w self h) as [[[[]|e|] self1] h1];
    simpl; [apply IH | discriminate | discriminate].
Qed.






(** * Further properties of the code *)

(** ** The feature switches *)

Lemma upper_ascii_Y (a : ascii) :
  PyStr.upper_ascii a = "Y"%char -> a = "Y"%char \/ a = "y"%char.
Proof.
  destruct a as [[] [] [] [] [] [] [] []]; intros H;
    first [ discriminate H | now left | now right ].
Qed.

(** X1.  A switch of the configuration ([DISPLAY.ENABLED],
    [ADAFRUIT_IO.ENABLED], [LOGGING.CONSOLE_ENABLED]) is on exactly for the
    texts "Y" and "y": any other text, "yes" and "true" included, leaves the
    feature off. *)
Theorem enabled_iff_Y :
  forall s : string, enabled s = true <-> s = "Y" \/ s = "y".
Proof.
  intros s. unfold enabled. rewrite String.eqb_eq. split.
  - destruct s as [|a [|b t]]; simpl; intros H; try discriminate H.
    inversion H as [Ha].
    destruct (upper_ascii_Y a Ha) as [-> | ->]; auto.
  - intros [-> | ->]; reflexivity.
Qed.

(** ** Formatting, continued *)

Lemma rstrip_contains (c c' : ascii) (s : string) :
  c' <> c -> PyStr.contains c' (PyStr.rstrip c s) = PyStr.contains c' s.
Proof.
  intros Hne. induction s as [|a s IH]; simpl; [reflexivity|].
  destruct (PyStr.rstrip c s) as [|b t] eqn:E.
  - simpl in IH. rewrite <- IH.
    destruct (Ascii.eqb a c) eqn:Eac; simpl; [|reflexivity].
    apply Ascii.eqb_eq in Eac. subst a.
    destruct (Ascii.eqb c c') eqn:Ecc; [|reflexivity].
    apply Ascii.eqb_eq in Ecc. now contradiction Hne.
  - simpl. simpl in IH. now rewrite IH.
Qed.

Lemma append_nonempty_l (s t : string) : s <> "" -> (s ++ t)%string <> "".
Proof. destruct s; [now intros H | discriminate]. Qed.

Lemma append_nonempty_r (s t : string) : t <> "" -> (s ++ t)%string <> "".
Proof. destruct s; simpl; [now intros H | discriminate]. Qed.

Lemma with_point_nonempty (i f : string) : i <> "" -> Fmt.with_point i f <> "".
Proof.
  intros H. unfold Fmt.with_point. destruct f; [exact H|].
  now apply append_nonempty_l.
Qed.

Lemma render_nonempty (ds : string) (X : Z) : Fmt.render ds X <> "".
Proof.
  unfold Fmt.render. destruct ds as [|d rest]; [discriminate|].
  destruct ((X <? -4) || (3 <=? X)).
  - apply append_nonempty_l, with_point_nonempty. discriminate.
  - destruct (X <? 0) eqn:E0; [discriminate|].
    apply Z.ltb_ge in E0. apply with_point_nonempty.
    destruct (Z.to_nat (X + 1)) as [|k] eqn:En; [lia|].
    simpl. discriminate.
Qed.

Lemma format_3g_nonempty (x : PyFloat.float) : Fmt.format_3g x <> "".
Proof.
  destruct x as [s|s| |s m e]; simpl;
    try (destruct s; discriminate); try discriminate.
  apply append_nonempty_r. unfold Fmt.g3.
  destruct (if 0 <=? e then _ else _) as [num den].
  destruct (Fmt.sig3 num den) as [q X]. apply render_nonempty.
Qed.

(** The text stored for a reading is never empty: it counts as true in
    [if values[key]], also for the float 0.0. *)
Lemma FormatResult_truthy (x : PyFloat.float) :
  PyStr.truthy (Some (_FormatResult x)) = true.
Proof.
  assert (N : _FormatResult x <> "").
  { unfold _FormatResult.
    destruct (PyStr.contains "." (Fmt.format_3g x)) eqn:E.
    - intros H.
      assert (C : PyStr.contains "." (PyStr.rstrip "0" (Fmt.format_3g x))
                  = true)
        by (rewrite rstrip_contains; [exact E | discriminate]).
      rewrite H in C. discriminate C.
    - apply format_3g_nonempty. }
  simpl. destruct (_FormatResult x); [now contradiction N | reflexivity].
Qed.

(** X2.  After a valid sample all three channels are due for publishing,
    whatever the values read: a reading of zero is stored as the text "0",
    which counts as true, so it is uploaded like any other. *)
Theorem valid_sample_wants_all_channels :
  forall (w : World) (self : AirMonitor) (h : list event) (r : DHT11Result),
    sensor w h = Ok r ->
    is_valid r = true ->
    let self' := snd (fst (DHT11Read w self h)) in
    all_present self' /\
    wanted self' = ["fahrenheit"; "celsius"; "humidity"].
Proof.
  intros w self h r Hs Hv.
  unfold DHT11Read, bind, call, modify. rewrite Hs, Hv.
  cbv zeta. cbn [fst snd].
  unfold all_present, wanted, wanted_keys, set_readings.
  cbn [temperature_celsius temperature_fahrenheit humidity].
  rewrite !FormatResult_truthy. auto.
Qed.

Lemma valid_sample_wants_all_channels_witness :
  temperature_celsius
    (snd (fst (DHT11Read zero_world (Sample.fresh None) []))) = Some "0" /\
  wanted (snd (fst (DHT11Read zero_world (Sample.fresh None) [])))
  = ["fahrenheit"; "celsius"; "humidity"].
Proof.
  split; [reflexivity|].
  exact (proj2 (valid_sample_wants_all_channels
                  zero_world (Sample.fresh None) [] zero_reading
                  eq_refl eq_refl)).
Defined.

(** X3.  The text stored for a reading, whatever the float: it is never
    empty; if it has a decimal point it does not end in a zero; and where
    the three-digit presentation has no exponent field (rounded magnitudes
    from 0.0001 to 999, zero, infinities and nan) it is that presentation
    unchanged. *)
Theorem FormatResult_text :
  forall x : PyFloat.float,
    _FormatResult x <> "" /\
    (PyStr.contains "." (_FormatResult x) = true ->
     PyStr.last_char (_FormatResult x) <> Some "0"%char) /\
    (Fmt.uses_exponent x = false -> _FormatResult x = Fmt.format_3g x).
Proof.
  intros x. split; [|split].
  - pose proof (FormatResult_truthy x) as H. intros E. rewrite E in H.
    discriminate H.
  - apply FormatResult_no_trailing_zero.
  - apply FormatResult_plain_unchanged.
Qed.

Lemma FormatResult_text_witness :
  PyStr.contains "." (_FormatResult (PyFloat.decimal 21456 (-3))) = true /\
  PyStr.last_char (_FormatResult (PyFloat.decimal 21456 (-3)))
  <> Some "0"%char /\
  Fmt.uses_exponent (PyFloat.decimal 1005 (-1)) = false /\
  _FormatResult (PyFloat.decimal 1005 (-1)) = "100".
Proof.
  split; [reflexivity|]. split.
  - apply (proj1 (proj2 (FormatResult_text (PyFloat.decimal 21456 (-3))))).
    reflexivity.
  - split; [reflexivity|].
    rewrite (proj2 (proj2 (FormatResult_text (PyFloat.decimal 1005 (-1))))
               eq_refl).
    reflexivity.
Defined.

(** ** What the methods keep *)

Lemma perform_keeps (w : World) (I : AirMonitor -> Prop) :
  (forall t self, I self -> I (set_adafruit_last_upload t self)) ->
  (forall r self,
      is_valid r = true -> I self ->
      I (set_readings
           (Some (_FormatResult
              (PyFloat.add (temperature r)
                           (TEMPERATURE_CALIBRATION (config self)))))
           (Some (_FormatResult
              (_ctof (PyFloat.add (temperature r)
                                  (TEMPERATURE_CALIBRATION (config self))))))
           (Some (_FormatResult
              (PyFloat.add (dht_humidity r)
                           (HUMIDITY_CALIBRATION (config self)))))
           self)) ->
  forall op, respects I (fun _ => True) (perform w op).
Proof.
  intros Hu Hs op.
  assert (T : forall ev, is_GPIO_cleanup ev = false -> True) by auto.
  destruct op; simpl.
  - now apply Run_respects.
  - now apply AdafruitUpload_respects.
  - apply Cleanup_respects.
  - now apply DHT11Read_respects.
  - now apply GetEnvironmentMetrics_respects.
  - now apply LogResults_respects.
  - now apply UpdateLCDDisplay_respects.
Qed.

Lemma perform_all_keeps (w : World) (I : AirMonitor -> Prop) :
  (forall op, respects I (fun _ => True) (perform w op)) ->
  forall ops self h, I self -> I (fst (perform_all w ops self h)).
Proof.
  intros Hop ops. induction ops as [|op ops IH]; intros self h HI; simpl;
    [exact HI|].
  destruct (perform w op self h) as [[o self'] h'] eqn:Ep.
  apply IH. now destruct (Hop op _ _ _ _ _ HI Ep).
Qed.

(** X4.  Readings are never taken back: once the three readings are
    present they stay present through any sequence of method calls.  A
    failed sample, a failed upload or a failed display leaves the last
    readings in place, to be logged, shown and uploaded again. *)
Theorem readings_persist :
  forall (w : World) (ops : list operation) (self : AirMonitor)
         (h : list event),
    all_present self ->
    all_present (fst (perform_all w ops self h)).
Proof.
  intros w ops self h. apply perform_all_keeps. apply perform_keeps.
  - intros t s H. exact H.
  - intros r s _ _. unfold all_present, set_readings.
    cbn [temperature_celsius temperature_fahrenheit humidity].
    rewrite !FormatResult_truthy. auto.
Qed.

Lemma readings_persist_witness :
  all_present
    (fst (perform_all (Sample.world 0 false [] ["fahrenheit"] 0)
            [op_DHT11Read; op_AdafruitUpload; op_Run 2; op_Cleanup]
            (Sample.sampled None) [])).
Proof.
  apply (readings_persist (Sample.world 0 false [] ["fahrenheit"] 0)).
  repeat split.
Defined.


(** ** What a feature that is switched off never does *)

Section Switches.

Variable w : World.
Variable cfg : Config.
Variable I : AirMonitor -> Prop.
Variable P : event -> Prop.

Hypothesis I_cfg : forall self, I self -> config self = cfg.
Hypothesis I_readings : forall c f hu self,
    I self -> I (set_readings c f hu self).
Hypothesis I_sensor : forall pin self, I self -> I (set_dht_sensor pin self).
Hypothesis I_upload :
  enabled (ADAFRUIT_IO_ENABLED cfg) = true ->
  forall t self, I self -> I (set_adafruit_last_upload t self).

Hypothesis P_setwarnings : P (GPIO_setwarnings true).
Hypothesis P_setmode : P GPIO_setmode_BCM.
Hypothesis P_cleanup : P GPIO_cleanup.
Hypothesis P_clock : P datetime_now.
Hypothesis P_sensor : P dht_read.
Hypothesis P_sleep : forall seconds, P (time_sleep seconds).
Hypothesis P_print :
  enabled (CONSOLE_ENABLED cfg) = true -> forall message, P (print message).
Hypothesis P_lcd :
  enabled (DISPLAY_ENABLED cfg) = true ->
  forall ev, is_lcd ev = true -> P ev.
Hypothesis P_aio :
  enabled (ADAFRUIT_IO_ENABLED cfg) = true ->
  forall ev, is_aio ev = true -> P ev.

(** A method that starts by reading [self] may rely on the invariant. *)
Lemma respects_self {A : Type} (k : AirMonitor -> M A) :
  (forall self, I self -> respects I P (k self)) ->
  respects I P (bind get_self k).
Proof.
  intros Hk self h o self' h' HI E. unfold bind, get_self in E.
  exact (Hk self HI self h o self' h' HI E).
Qed.

Ltac plain :=
  first [ apply respects_call | apply respects_emit ];
  first [ exact P_setwarnings | exact P_setmode | exact P_cleanup
        | exact P_clock | exact P_sensor | apply P_sleep ].

Lemma now_switch : respects I P (now w).
Proof. unfold now. plain. Qed.

Lemma Log_switch (message : string) : respects I P (Log message).
Proof.
  unfold Log. apply respects_self. intros self HI.
  rewrite (I_cfg _ HI).
  case_eq (enabled (CONSOLE_ENABLED cfg)); intros E.
  - apply respects_emit. now apply P_print.
  - apply respects_ret.
Qed.

Lemma DHT11Read_switch : respects I P (DHT11Read w).
Proof.
  unfold DHT11Read. apply respects_bind; [plain|]. intros r.
  destruct (is_valid r).
  - apply respects_modify. intros self HI. now apply I_readings.
  - apply Log_switch.
Qed.

Lemma GetEnvironmentMetrics_switch : respects I P (GetEnvironmentMetrics w).
Proof.
  unfold GetEnvironmentMetrics. apply respects_self. intros self _.
  destruct (dht_sensor self); [apply DHT11Read_switch | apply respects_ret].
Qed.

Lemma LogResults_switch : respects I P (LogResults w).
Proof.
  unfold LogResults.
  repeat respects_step; first [ apply now_switch | apply Log_switch ].
Qed.

Lemma UpdateLCDDisplay_switch :
  enabled (DISPLAY_ENABLED cfg) = true -> respects I P (UpdateLCDDisplay w).
Proof.
  intros E. unfold UpdateLCDDisplay.
  repeat respects_step;
    first [ apply now_switch
          | apply respects_call; apply (P_lcd E); reflexivity ].
Qed.

Lemma upload_value_switch (kv : string * option string) :
  enabled (ADAFRUIT_IO_ENABLED cfg) = true ->
  respects I P (upload_value w kv).
Proof.
  intros E. unfold upload_value.
  repeat respects_step;
    first [ apply respects_call; apply (P_aio E); reflexivity ].
Qed.

Lemma AdafruitUpload_switch : respects I P (AdafruitUpload w).
Proof.
  unfold AdafruitUpload. apply respects_self. intros self HI.
  rewrite (I_cfg _ HI).
  case_eq (enabled (ADAFRUIT_IO_ENABLED cfg)); intros E; [|apply respects_ret].
  apply respects_bind.
  - unfold upload_due. repeat respects_step; try apply now_switch.
  - intros [|]; [|apply respects_ret].
    unfold upload_pass, GetValueDict.
    repeat respects_step;
      first [ now apply upload_value_switch | apply now_switch
            | apply respects_modify; intros s Hs; now apply I_upload ].
Qed.

Lemma Run_iteration_switch : respects I P (Run_iteration w).
Proof.
  unfold Run_iteration.
  apply respects_bind; [apply GetEnvironmentMetrics_switch|]. intros _.
  apply respects_bind; [apply LogResults_switch|]. intros _.
  apply respects_self. intros self HI. rewrite (I_cfg _ HI).
  apply respects_bind.
  - case_eq (enabled (DISPLAY_ENABLED cfg)); intros E;
      [now apply UpdateLCDDisplay_switch | apply respects_ret].
  - intros _. apply respects_bind; [apply AdafruitUpload_switch|].
    intros _. plain.
Qed.

Lemma Run_switch (n : nat) : respects I P (Run w n).
Proof.
  induction n as [|n IH]; simpl.
  - intros self h o self' h' HI E. inversion E; subst.
    split; [assumption|]. exists []. now rewrite app_nil_r.
  - apply respects_bind; [apply Run_iteration_switch | auto].
Qed.

Lemma guarded_Run_switch (n : nat) : respects I P (guarded_Run w n).
Proof.
  unfold guarded_Run, Cleanup.
  repeat respects_step;
    first [ apply Run_switch | apply Log_switch | plain ].
Qed.

Lemma init_switch : respects I P (__init__ w).
Proof.
  unfold __init__.
  apply respects_bind;
    [apply respects_modify; intros s Hs; now apply I_readings|]. intros _.
  apply respects_bind; [plain|]. intros _.
  apply respects_bind; [plain|]. intros _.
  apply respects_bind.
  { unfold SetupSesnors. apply respects_self. intros self HI.
    destruct (String.eqb _ _);
      [apply respects_modify; intros s Hs; now apply I_sensor
      |apply respects_raise]. }
  intros _. apply respects_self. intros self HI. rewrite (I_cfg _ HI).
  apply respects_bind.
  - case_eq (enabled (DISPLAY_ENABLED cfg)); intros E; [|apply respects_ret].
    apply respects_call. now apply (P_lcd E).
  - intros _. case_eq (enabled (ADAFRUIT_IO_ENABLED cfg)); intros E;
      [|apply respects_ret].
    apply respects_modify. intros s Hs. now apply I_upload.
Qed.

(** Every call of the whole program is of class [P], and an instance that
    was constructed satisfies [I] to the end. *)
Lemma main_switch (n : nat) :
  I (blank cfg) ->
  let '(o, monitor, tr) := main w cfg n in
  Forall P tr /\
  match monitor with
  | Some self => I self
  | None => True
  end.
Proof.
  intros HB. unfold main.
  destruct (__init__ w (blank cfg) []) as [[o0 m0] h0] eqn:Ei.
  destruct (init_switch _ _ _ _ _ HB Ei) as [HI0 [evs0 [-> F0]]].
  simpl in *.
  destruct o0 as [[]|e|]; [|now split|now split].
  destruct (guarded_Run w n m0 evs0) as [[o m] h1] eqn:Eg.
  destruct (guarded_Run_switch n _ _ _ _ _ HI0 Eg) as [HI1 [evs1 [-> F1]]].
  split; [now apply Forall_app | exact HI1].
Qed.

End Switches.

Lemma calls_none (class : event -> bool) (evs : list event) :
  Forall (fun ev => class ev = false) evs -> calls class evs = 0%nat.
Proof.
  unfold calls. induction 1 as [|ev evs Hev _ IH]; simpl; [reflexivity|].
  now rewrite Hev.
Qed.

(** X6.  With console logging switched off the program prints nothing, from
    the constructor to the shutdown message, whatever the collaborators do. *)
Theorem console_off_prints_nothing :
  forall (w : World) (cfg : Config) (n : nat),
    enabled (CONSOLE_ENABLED cfg) = false ->
    calls is_print (snd (main w cfg n)) = 0%nat.
Proof.
  intros w cfg n Hoff. apply calls_none.
  assert (H : let '(o, m, tr) := main w cfg n in
              Forall (fun ev => is_print ev = false) tr /\
              match m with
              | Some self => config self = cfg
              | None => True
              end).
  { apply (main_switch w cfg (fun s => config s = cfg)
             (fun ev => is_print ev = false)); auto.
    all: try (intros E; rewrite Hoff in E; discriminate E).
    all: try (intros _ ev Hev; now destruct ev).
    all: try (intros _ message; reflexivity). }
  destruct (main w cfg n) as [[o m] tr]. simpl. exact (proj1 H).
Qed.

Lemma console_off_prints_nothing_witness :
  calls is_print
    (snd (main (Sample.world 0 false [] [] 30)
               (switched "DHT11" "y" "Y" "no") 3)) = 0%nat.
Proof.
  apply (console_off_prints_nothing (Sample.world 0 false [] [] 30)
           (switched "DHT11" "y" "Y" "no") 3).
  reflexivity.
Defined.

(** X7.  With the display switched off the LCD driver is neither
    constructed nor called. *)
Theorem display_off_leaves_lcd_alone :
  forall (w : World) (cfg : Config) (n : nat),
    enabled (DISPLAY_ENABLED cfg) = false ->
    calls is_lcd (snd (main w cfg n)) = 0%nat.
Proof.
  intros w cfg n Hoff. apply calls_none.
  assert (H : let '(o, m, tr) := main w cfg n in
              Forall (fun ev => is_lcd ev = false) tr /\
              match m with
              | Some self => config self = cfg
              | None => True
              end).
  { apply (main_switch w cfg (fun s => config s = cfg)
             (fun ev => is_lcd ev = false)); auto.
    all: try (intros E; rewrite Hoff in E; discriminate E).
    all: try (intros _ ev Hev; now destruct ev).
    all: try (intros _ message; reflexivity). }
  destruct (main w cfg n) as [[o m] tr]. simpl. exact (proj1 H).
Qed.

Lemma display_off_leaves_lcd_alone_witness :
  calls is_lcd (snd (main no_lcd_world (switched "DHT11" "N" "Y" "Y") 3))
  = 0%nat.
Proof.
  apply (display_off_leaves_lcd_alone no_lcd_world
           (switched "DHT11" "N" "Y" "Y") 3).
  reflexivity.
Defined.

(** X8.  With Adafruit IO switched off the client is never called (no
    lookup, no creation, no send) and no upload time is ever recorded. *)
Theorem adafruit_off_never_uploads :
  forall (w : World) (cfg : Config) (n : nat),
    enabled (ADAFRUIT_IO_ENABLED cfg) = false ->
    calls is_aio (snd (main w cfg n)) = 0%nat /\
    match snd (fst (main w cfg n)) with
    | Some self => adafruit_last_upload self = None
    | None => True
    end.
Proof.
  intros w cfg n Hoff.
  assert (H : let '(o, m, tr) := main w cfg n in
              Forall (fun ev => is_aio ev = false) tr /\
              match m with
              | Some self =>
                  config self = cfg /\ adafruit_last_upload self = None
              | None => True
              end).
  { apply (main_switch w cfg
             (fun s => config s = cfg /\ adafruit_last_upload s = None)
             (fun ev => is_aio ev = false)); auto.
    all: try (now intros self [Hc _]).
    all: try (intros E; rewrite Hoff in E; discriminate E).
    all: try (intros _ ev Hev; now destruct ev).
    all: try (intros _ message; reflexivity). }
  destruct (main w cfg n) as [[o m] tr]. simpl. destruct H as [F HI].
  split; [now apply calls_none|].
  destruct m; [exact (proj2 HI) | exact Logic.I].
Qed.

Lemma adafruit_off_never_uploads_witness :
  calls is_aio
    (snd (main (Sample.world 0 true [] [] 30)
               (switched "DHT11" "Y" "off" "Y") 3)) = 0%nat.
Proof.
  exact (proj1 (adafruit_off_never_uploads (Sample.world 0 true [] [] 30)
                  (switched "DHT11" "Y" "off" "Y") 3 eq_refl)).
Defined.

(** ** A constructor that raises *)

(** X9.  The instance is constructed outside the [try] statement.  When the
    sensor type is not exactly "DHT11", or when the LCD driver cannot be
    constructed, the process ends with that exception once GPIO has been
    configured: the loop is never entered and [GPIO.cleanup()] is never
    called. *)
Theorem constructor_failure_skips_cleanup :
  forall (w : World) (cfg : Config) (n : nat),
    (ENV_SENSOR_TYPE cfg <> "DHT11" ->
     main w cfg n
     = (Raise (Exception "Invalid sensor defined"), None,
        [GPIO_setwarnings true; GPIO_setmode_BCM]))
    /\ (forall e,
          ENV_SENSOR_TYPE cfg = "DHT11" ->
          enabled (DISPLAY_ENABLED cfg) = true ->
          lcd_init w [GPIO_setwarnings true; GPIO_setmode_BCM] = Fails e ->
          main w cfg n
          = (Raise e, None,
             [GPIO_setwarnings true; GPIO_setmode_BCM; lcd_new])).
Proof.
  intros w cfg n. split.
  - intros Hne. apply String.eqb_neq in Hne.
    unfold main, __init__, SetupSesnors, bind, modify, emit, get_self, raise.
    cbn [config set_readings blank]. rewrite Hne. reflexivity.
  - intros e Ht Hd Hl.
    unfold main, __init__, SetupSesnors, bind, modify, emit, get_self, call.
    cbn [config set_readings set_dht_sensor blank app].
    rewrite Ht, String.eqb_refl.
    cbn [config set_readings set_dht_sensor blank app].
    rewrite Hd, Hl. reflexivity.
Qed.

Lemma constructor_failure_skips_cleanup_witness :
  main (Sample.world 0 true [] [] 30) (switched "dht11" "Y" "Y" "Y") 3
  = (Raise (Exception "Invalid sensor defined"), None,
     [GPIO_setwarnings true; GPIO_setmode_BCM])
  /\ main no_lcd_world (switched "DHT11" "Y" "Y" "Y") 3
     = (Raise (Exception "no device on the bus"), None,
        [GPIO_setwarnings true; GPIO_setmode_BCM; lcd_new]).
Proof.
  split.
  - apply (proj1 (constructor_failure_skips_cleanup
                    (Sample.world 0 true [] [] 30)
                    (switched "dht11" "Y" "Y" "Y") 3)).
    discriminate.
  - apply (proj2 (constructor_failure_skips_cleanup
                    no_lcd_world (switched "DHT11" "Y" "Y" "Y") 3));
      reflexivity.
Defined.

(** ** The calls of one upload cycle *)

Lemma calls_app (class : event -> bool) (xs ys : list event) :
  calls class (xs ++ ys) = (calls class xs + calls class ys)%nat.
Proof. unfold calls. now rewrite filter_app, length_app. Qed.

Lemma upload_value_calls (w : World) (kv : string * option string)
    (self : AirMonitor) (h : list event) o self' h' :
  upload_value w kv self h = (o, self', h') ->
  exists evs,
    h' = (h ++ evs)%list /\
    (calls is_lookup evs <= 1)%nat /\
    (calls is_create evs <= calls is_lookup evs)%nat /\
    (calls is_send evs <= calls is_lookup evs)%nat /\
    (o = Return tt -> calls is_send evs = calls is_lookup evs).
Proof.
  destruct kv as [k v].
  unfold upload_value, bind, try_except, call, ret.
  destruct (PyStr.truthy v).
  2:{ intros E; inversion E; subst. exists []. rewrite app_nil_r.
      repeat split; auto. }
  destruct (feeds w h k) as [fd|e1].
  - destruct (send_data w (h ++ [aio_feeds k]) (feed_key fd) (PyStr.fstr v))
      as [[]|e2]; intros E; inversion E; subst;
      exists [aio_feeds k; aio_send_data (feed_key fd) (PyStr.fstr v)];
      (split; [now rewrite <- app_assoc|]); cbv; repeat split; auto.
  - destruct (is_RequestError e1).
    + destruct (create_feed w (h ++ [aio_feeds k]) k) as [fd|e2].
      * destruct (send_data w ((h ++ [aio_feeds k]) ++ [aio_create_feed k])
                    (feed_key fd) (PyStr.fstr v)) as [[]|e3];
          intros E; inversion E; subst;
          exists [aio_feeds k; aio_create_feed k;
                  aio_send_data (feed_key fd) (PyStr.fstr v)];
          (split; [now rewrite <- !app_assoc|]); cbv; repeat split; auto.
      * intros E; inversion E; subst.
        exists [aio_feeds k; aio_create_feed k].
        split; [now rewrite <- app_assoc|]. cbv. repeat split; auto.
        discriminate.
    + intros E; inversion E; subst. exists [aio_feeds k].
      split; [reflexivity|]. cbv. repeat split; auto. discriminate.
Qed.

Lemma publish_calls (w : World) (values : list (string * option string)) :
  forall (self : AirMonitor) (h : list event) o self' h',
    for_each values (upload_value w) self h = (o, self', h') ->
    exists evs,
      h' = (h ++ evs)%list /\
      (calls is_lookup evs <= List.length values)%nat /\
      (calls is_create evs <= calls is_lookup evs)%nat /\
      (calls is_send evs <= calls is_lookup evs)%nat /\
      (o = Return tt -> calls is_send evs = calls is_lookup evs).
Proof.
  induction values as [|kv values IH]; intros self h o self' h' E.
  - inversion E; subst. exists []. rewrite app_nil_r. repeat split; auto.
  - cbn [for_each] in E. unfold bind in E.
    destruct (upload_value w kv self h) as [[o1 self1] h1] eqn:E1.
    destruct (upload_value_calls _ _ _ _ _ _ _ E1)
      as [evs1 [-> [L1 [C1 [S1 R1]]]]].
    destruct o1 as [[]|e1|].
    + destruct (IH _ _ _ _ _ E) as [evs2 [-> [L2 [C2 [S2 R2]]]]].
      exists (evs1 ++ evs2)%list. split; [now rewrite app_assoc|].
      rewrite !calls_app. simpl List.length.
      repeat split; try lia.
      intros Ho. rewrite (R1 eq_refl), (R2 Ho). reflexivity.
    + inversion E; subst. exists evs1. split; [reflexivity|].
      simpl List.length. repeat split; try lia. discriminate.
    + inversion E; subst. exists evs1. split; [reflexivity|].
      simpl List.length. repeat split; try lia. discriminate.
Qed.

(** X10.  One call of [AdafruitUpload] looks up at most three feeds,
    creates a feed only after a lookup and sends only after a lookup: at
    most three creations and three sends; when the call returns, every feed
    looked up has been sent to exactly once. *)
Theorem upload_cycle_call_bounds :
  forall (w : World) (self : AirMonitor) (h : list event),
    let '(o, self', h') := AdafruitUpload w self h in
    exists evs,
      h' = (h ++ evs)%list /\
      (calls is_lookup evs <= 3)%nat /\
      (calls is_create evs <= calls is_lookup evs)%nat /\
      (calls is_send evs <= calls is_lookup evs)%nat /\
      (o = Return tt -> calls is_send evs = calls is_lookup evs).
Proof.
  intros w self h.
  assert (Z0 : exists evs, h = (h ++ evs)%list /\
                 (calls is_lookup evs <= 3)%nat /\
                 (calls is_create evs <= calls is_lookup evs)%nat /\
                 (calls is_send evs <= calls is_lookup evs)%nat /\
                 (Return tt = Return tt ->
                  calls is_send evs = calls is_lookup evs)).
  { exists []. rewrite app_nil_r. cbv. repeat split; auto. }
  assert (Pass : forall pre o self' h',
             upload_pass w self (h ++ pre)%list = (o, self', h') ->
             Forall (fun ev => is_aio ev = false) pre ->
             exists evs,
               h' = (h ++ evs)%list /\
               (calls is_lookup evs <= 3)%nat /\
               (calls is_create evs <= calls is_lookup evs)%nat /\
               (calls is_send evs <= calls is_lookup evs)%nat /\
               (o = Return tt -> calls is_send evs = calls is_lookup evs)).
  { intros pre o self' h' Ep Fpre. rewrite upload_pass_eq in Ep.
    destruct (for_each _ (upload_value w) self (h ++ pre)%list)
      as [[o1 self1] h1] eqn:E1.
    destruct (publish_calls _ _ _ _ _ _ _ E1)
      as [evs [-> [L [C [S R]]]]]. simpl List.length in L.
    assert (N : forall class,
               (forall ev, class ev = true -> is_aio ev = true) ->
               calls class pre = 0%nat).
    { intros class Hc. apply calls_none.
      eapply Forall_impl; [|exact Fpre]. intros ev Hev. simpl in Hev.
      destruct (class ev) eqn:Ec; [|reflexivity].
      rewrite (Hc ev Ec) in Hev. discriminate Hev. }
    assert (Nl : calls is_lookup pre = 0%nat)
      by (apply N; intros ev; destruct ev; auto; discriminate).
    assert (Nc : calls is_create pre = 0%nat)
      by (apply N; intros ev; destruct ev; auto; discriminate).
    assert (Ns : calls is_send pre = 0%nat)
      by (apply N; intros ev; destruct ev; auto; discriminate).
    destruct o1 as [[]|e|]; inversion Ep; subst.
    - exists (pre ++ evs ++ [datetime_now])%list.
      split; [now rewrite <- !app_assoc|].
      rewrite !calls_app, Nl, Nc, Ns.
      change (calls is_lookup [datetime_now]) with 0%nat.
      change (calls is_create [datetime_now]) with 0%nat.
      change (calls is_send [datetime_now]) with 0%nat.
      specialize (R eq_refl). repeat split; lia.
    - exists (pre ++ evs)%list. split; [now rewrite <- app_assoc|].
      rewrite !calls_app, Nl, Nc, Ns.
      repeat split; try lia. discriminate.
    - exists (pre ++ evs)%list. split; [now rewrite <- app_assoc|].
      rewrite !calls_app, Nl, Nc, Ns.
      repeat split; try lia. discriminate. }
  rewrite AdafruitUpload_eq.
  destruct (enabled (ADAFRUIT_IO_ENABLED (config self))); [|exact Z0].
  rewrite upload_due_eq.
  destruct (adafruit_last_upload self) as [last|].
  - destruct (last + timedelta_minutes (UPLOAD_INTERVAL (config self))
              <=? clock w h).
    + destruct (upload_pass w self (h ++ [datetime_now])%list)
        as [[o self'] h'] eqn:Ep.
      apply (Pass [datetime_now] _ _ _ Ep). repeat constructor.
    + exists [datetime_now]. split; [reflexivity|]. cbv. repeat split; auto.
  - destruct (upload_pass w self h) as [[o self'] h'] eqn:Ep.
    apply (Pass [] o self' h'); [now rewrite app_nil_r | constructor].
Qed.

(** ** Where an exception of the loop comes from *)

Section RaisesOnlyFrom.

Variable w : World.



















End RaisesOnlyFrom.



(** ** From one upload cycle to the next *)



(** ** The Fahrenheit text *)

Lemma fahrenheit_text_exact_tenths :
  forallb fahrenheit_text_exact tenths = true.
Proof. vm_compute. reflexivity. Qed.

(** X13.  For a calibrated temperature of [n] tenths of a degree Celsius
    (the float nearest to [n/10]), from 0.0 to 100.0, the text stored for
    Fahrenheit is the
    three-significant-digit presentation of the exact value [9n/50 + 32]:
    the rounding errors of [9/5] and of the float product and sum never
    reach the text. *)
Theorem fahrenheit_text_is_exact :
  forall n : Z,
    0 <= n <= 1000 ->
    _FormatResult (_ctof (PyFloat.decimal n (-1)))
    = exact_3g (9 * n + 1600) 50.
Proof.
  intros n Hn. apply String.eqb_eq.
  pose proof fahrenheit_text_exact_tenths as H.
  rewrite forallb_forall in H. apply (H n).
  unfold tenths. apply in_map_iff. exists (Z.to_nat n).
  split; [lia|]. apply in_seq. lia.
Qed.

Lemma fahrenheit_text_is_exact_witness :
  0 <= 373 <= 1000 /\
  _FormatResult (_ctof (PyFloat.decimal 373 (-1))) = "99.1".
Proof.
  split; [lia|].
  rewrite (fahrenheit_text_is_exact 373) by lia. reflexivity.
Defined.

(** ** The turns of the loop *)

Section Settles.

Variable w : World.

Lemma settles_ret {A : Type} (a : A) : settles (ret a).
Proof. intros self h. discriminate. Qed.

Lemma settles_get_self : settles get_self.
Proof. intros self h. discriminate. Qed.

Lemma settles_modify (f : AirMonitor -> AirMonitor) : settles (modify f).
Proof. intros self h. discriminate. Qed.

Lemma settles_emit (ev : event) : settles (emit ev).
Proof. intros self h. discriminate. Qed.

Lemma settles_call {A : Type} (ev : event) (oracle : list event -> answer A) :
  settles (call ev oracle).
Proof. intros self h. unfold call. destruct (oracle h); discriminate. Qed.

Lemma settles_bind {A B : Type} (c : M A) (k : A -> M B) :
  settles c -> (forall a, settles (k a)) -> settles (bind c k).
Proof.
  intros Hc Hk self h. unfold bind. specialize (Hc self h).
  destruct (c self h) as [[[a|e|] self1] h1]; simpl in *.
  - apply Hk.
  - discriminate.
  - now contradiction Hc.
Qed.

Lemma settles_try_except {A : Type} (c : M A) (catches : exn -> bool)
    (handler : exn -> M A) :
  settles c -> (forall e, settles (handler e)) ->
  settles (try_except c catches handler).
Proof.
  intros Hc Hh self h. unfold try_except. specialize (Hc self h).
  destruct (c self h) as [[[a|e|] self1] h1]; simpl in *.
  - discriminate.
  - destruct (catches e); [apply Hh | discriminate].
  - now contradiction Hc.
Qed.

Lemma settles_for_each {A : Type} (xs : list A) (body : A -> M unit) :
  (forall x, settles (body x)) -> settles (for_each xs body).
Proof.
  intros Hb. induction xs as [|x xs IH]; simpl.
  - apply settles_ret.
  - apply settles_bind; auto.
Qed.

Ltac settle :=
  repeat match goal with
  | |- settles (bind _ _) => apply settles_bind
  | |- settles (ret _) => apply settles_ret
  | |- settles get_self => apply settles_get_self
  | |- settles (modify _) => apply settles_modify
  | |- settles (emit _) => apply settles_emit
  | |- settles (call _ _) => apply settles_call
  | |- settles (try_except _ _ _) => apply settles_try_except
  | |- settles (for_each _ _) => apply settles_for_each
  | |- settles (if ?b then _ else _) => destruct b
  | |- settles (match ?x with Some _ => _ | None => _ end) => destruct x
  | |- forall _, _ => intro
  end.

Lemma settles_Log (message : string) : settles (Log message).
Proof. unfold Log. settle. Qed.

Lemma settles_DHT11Read : settles (DHT11Read w).
Proof. unfold DHT11Read. settle. apply settles_Log. Qed.

Lemma settles_LogResults : settles (LogResults w).
Proof. unfold LogResults, now. settle; apply settles_Log. Qed.

Lemma settles_UpdateLCDDisplay : settles (UpdateLCDDisplay w).
Proof. unfold UpdateLCDDisplay, now. settle. Qed.

Lemma settles_upload_value (kv : string * option string) :
  settles (upload_value w kv).
Proof. destruct kv as [k v]. unfold upload_value. settle. Qed.

Lemma settles_AdafruitUpload : settles (AdafruitUpload w).
Proof.
  unfold AdafruitUpload. settle. unfold upload_due, now. settle.
  unfold upload_pass, GetValueDict, now. settle. apply settles_upload_value.
Qed.

End Settles.

Section Turns.

Variable w : World.
Variable cfg : Config.

Lemma constructed_cfg (self : AirMonitor) :
  constructed cfg self -> config self = cfg.
Proof. now intros [H _]. Qed.

Lemma constructed_readings (c f hu : option string) (self : AirMonitor) :
  constructed cfg self -> constructed cfg (set_readings c f hu self).
Proof. intros H. exact H. Qed.

Lemma constructed_upload (t : option datetime) (self : AirMonitor) :
  constructed cfg self -> constructed cfg (set_adafruit_last_upload t self).
Proof. intros H. exact H. Qed.

Lemma quiet_calls (evs : list event) :
  Forall quiet evs ->
  calls is_sensor_read evs = 0%nat /\ calls is_sleep evs = 0%nat /\
  Forall (sleeps_for cfg) evs.
Proof.
  intros F. repeat split.
  - apply calls_none. eapply Forall_impl; [|exact F]. now intros ev [H _].
  - apply calls_none. eapply Forall_impl; [|exact F]. now intros ev [_ H].
  - eapply Forall_impl; [|exact F]. intros ev [_ H] Hs.
    rewrite H in Hs. discriminate Hs.
Qed.

Lemma ends_turn_bind {A B : Type} (c : M A) (k : A -> M B) :
  respects (constructed cfg) quiet c -> settles c ->
  (forall a, ends_turn cfg (k a)) ->
  ends_turn cfg (bind c k).
Proof.
  intros Hc Sc Hk self h o self' h' HI E. unfold bind in E.
  specialize (Sc self h).
  destruct (c self h) as [[o1 self1] h1] eqn:E1.
  destruct (Hc _ _ _ _ _ HI E1) as [HI1 [evs1 [-> F1]]].
  destruct (quiet_calls _ F1) as [R1 [S1 Q1]].
  destruct o1 as [a|e|]; simpl in Sc.
  - destruct (Hk a _ _ _ _ _ HI1 E)
      as [HI2 [Hr [evs2 [-> [R2 [S2 [T2 Q2]]]]]]].
    split; [exact HI2|]. split; [exact Hr|].
    exists (evs1 ++ evs2)%list. split; [now rewrite app_assoc|].
    rewrite !calls_app, R1, S1. repeat split; auto.
    now apply Forall_app.
  - inversion E; subst. split; [exact HI1|]. split; [discriminate|].
    exists evs1. split; [reflexivity|]. rewrite R1, S1.
    repeat split; auto. discriminate.
  - now contradiction Sc.
Qed.

Lemma ends_turn_self {A : Type} (k : AirMonitor -> M A) :
  (forall self, constructed cfg self -> ends_turn cfg (k self)) ->
  ends_turn cfg (bind get_self k).
Proof.
  intros Hk self h o self' h' HI E. unfold bind, get_self in E.
  exact (Hk self HI self h o self' h' HI E).
Qed.

Lemma ends_turn_sleep :
  ends_turn cfg
    (call (time_sleep (UPDATE_INTERVAL cfg))
          (fun h => slept w h (UPDATE_INTERVAL cfg))).
Proof.
  intros self h o self' h' HI E. unfold call in E.
  destruct (slept w h (UPDATE_INTERVAL cfg)); inversion E; subst;
    (split; [exact HI|]); (split; [discriminate|]);
    exists [time_sleep (UPDATE_INTERVAL cfg)];
    (split; [reflexivity|]); repeat split; auto;
    repeat constructor.
Qed.

Lemma quiet_print (message : string) : quiet (print message).
Proof. split; reflexivity. Qed.

Lemma quiet_lcd (ev : event) : is_lcd ev = true -> quiet ev.
Proof. destruct ev; intros H; try discriminate H; split; reflexivity. Qed.

Lemma quiet_aio (ev : event) : is_aio ev = true -> quiet ev.
Proof. destruct ev; intros H; try discriminate H; split; reflexivity. Qed.

Lemma quiet_clock : quiet datetime_now.
Proof. split; reflexivity. Qed.

(** One turn on a constructed instance: one sensor read, then at most one
    sleep, the configured one, which is there when the turn completes. *)
Lemma turn_calls (self : AirMonitor) (h : list event) o self' h' :
  constructed cfg self ->
  Run_iteration w self h = (o, self', h') ->
  constructed cfg self' /\ o <> Running /\
  exists evs,
    h' = (h ++ evs)%list /\
    calls is_sensor_read evs = 1%nat /\
    (calls is_sleep evs <= 1)%nat /\
    (o = Return tt -> calls is_sleep evs = 1%nat) /\
    Forall (sleeps_for cfg) evs.
Proof.
  intros HI E.
  assert (Tail : ends_turn cfg
            (LogResults w ;;
             self <- get_self ;;
             (if enabled (DISPLAY_ENABLED (config self))
              then UpdateLCDDisplay w else ret tt) ;;
             AdafruitUpload w ;;
             call (time_sleep (UPDATE_INTERVAL (config self)))
                  (fun h => slept w h (UPDATE_INTERVAL (config self))))).
  { apply ends_turn_bind;
      [ apply (LogResults_switch w cfg);
          auto using constructed_cfg, quiet_clock, quiet_print
      | apply settles_LogResults |].
    intros _. apply ends_turn_self. intros s Hs.
    rewrite (constructed_cfg _ Hs).
    apply ends_turn_bind.
    - case_eq (enabled (DISPLAY_ENABLED cfg)); intros Ed;
        [|apply respects_ret].
      apply (UpdateLCDDisplay_switch w cfg);
        auto using quiet_clock, quiet_lcd.
    - destruct (enabled (DISPLAY_ENABLED cfg));
        [apply settles_UpdateLCDDisplay | apply settles_ret].
    - intros _. apply ends_turn_bind;
        [ apply (AdafruitUpload_switch w cfg);
            auto using constructed_cfg, constructed_upload, quiet_clock,
                       quiet_aio
        | apply settles_AdafruitUpload |].
      intros _. apply ends_turn_sleep. }
  unfold Run_iteration in E. unfold bind at 1 in E.
  unfold GetEnvironmentMetrics, bind at 1, get_self in E.
  destruct HI as [Hc Hd].
  destruct (dht_sensor self) as [pin|] eqn:Ed; [|now contradiction Hd].
  assert (HI : constructed cfg self) by (split; [exact Hc | now rewrite Ed]).
  unfold DHT11Read, bind at 1, call in E.
  destruct (sensor w h) as [r|e].
  - assert (Rest : respects (constructed cfg) quiet
              (if is_valid r
               then modify (fun self0 =>
                      set_readings
                        (Some (_FormatResult
                           (PyFloat.add (temperature r)
                              (TEMPERATURE_CALIBRATION (config self0)))))
                        (Some (_FormatResult
                           (_ctof (PyFloat.add (temperature r)
                              (TEMPERATURE_CALIBRATION (config self0))))))
                        (Some (_FormatResult
                           (PyFloat.add (dht_humidity r)
                              (HUMIDITY_CALIBRATION (config self0)))))
                        self0)
               else Log ("DHT11 Error: " ++ PyStr.str_of_Z (error_code r)))).
    { destruct (is_valid r).
      - apply respects_modify. intros s Hs. exact Hs.
      - apply (Log_switch cfg); auto using constructed_cfg, quiet_print. }
    match type of E with
    | (let (p, _) := ?c self ?hh in _) = _ =>
        destruct (c self hh) as [[o1 self1] h1] eqn:E1
    end.
    destruct (Rest _ _ _ _ _ HI E1) as [HI1 [evs1 [-> F1]]].
    destruct (quiet_calls _ F1) as [R1 [S1 Q1]].
    assert (Hset : o1 <> Running).
    { intros ->. destruct (is_valid r).
      - discriminate E1.
      - exact (settles_Log _ self (h ++ [dht_read])%list
                 (f_equal (fun x => fst (fst x)) E1)). }
    destruct o1 as [[]|e|].
    + destruct (Tail _ _ _ _ _ HI1 E)
        as [HI2 [Hr [evs2 [-> [R2 [S2 [T2 Q2]]]]]]].
      split; [exact HI2|]. split; [exact Hr|].
      exists (dht_read :: evs1 ++ evs2)%list.
      split; [now rewrite <- !app_assoc|].
      change (dht_read :: evs1 ++ evs2)%list
        with ([dht_read] ++ evs1 ++ evs2)%list.
      rewrite !calls_app, R1, S1, R2.
      change (calls is_sensor_read [dht_read]) with 1%nat.
      change (calls is_sleep [dht_read]) with 0%nat.
      cbn [Nat.add]. repeat split; auto; try (now apply (T2 tt)).
      constructor; [discriminate | now apply Forall_app].
    + inversion E; subst. split; [exact HI1|]. split; [discriminate|].
      exists (dht_read :: evs1)%list. split; [now rewrite <- app_assoc|].
      change (dht_read :: evs1)%list with ([dht_read] ++ evs1)%list.
      rewrite !calls_app, R1, S1.
      change (calls is_sensor_read [dht_read]) with 1%nat.
      change (calls is_sleep [dht_read]) with 0%nat.
      cbn [Nat.add]. repeat split; auto; try discriminate.
      constructor; [discriminate | exact Q1].
    + now contradiction Hset.
  - inversion E; subst. split; [exact HI|]. split; [discriminate|].
    exists [dht_read]. split; [reflexivity|].
    repeat split; auto; try discriminate. repeat constructor. discriminate.
Qed.

End Turns.

Lemma Run_turns (w : World) (cfg : Config) (n : nat) :
  forall (self : AirMonitor) (h : list event) o self' h',
    constructed cfg self ->
    Run w n self h = (o, self', h') ->
    exists evs,
      h' = (h ++ evs)%list /\
      Forall (sleeps_for cfg) evs /\
      match o with
      | Running =>
          calls is_sensor_read evs = n /\ calls is_sleep evs = n
      | Raise _ =>
          (1 <= calls is_sensor_read evs <= n)%nat /\
          (calls is_sleep evs <= calls is_sensor_read evs)%nat /\
          (calls is_sensor_read evs <= S (calls is_sleep evs))%nat
      | Return _ => False
      end.
Proof.
  induction n as [|n IH]; intros self h o self' h' HI E.
  - inversion E; subst. exists []. rewrite app_nil_r.
    split; [reflexivity|]. split; [constructor | split; reflexivity].
  - cbn [Run] in E. unfold bind in E.
    destruct (Run_iteration w self h) as [[o1 self1] h1] eqn:E1.
    destruct (turn_calls w cfg _ _ _ _ _ HI E1)
      as [HI1 [Hr [evs1 [-> [R1 [S1 [T1 Q1]]]]]]].
    destruct o1 as [[]|e|].
    + destruct (IH _ _ _ _ _ HI1 E) as [evs2 [-> [Q2 H2]]].
      exists (evs1 ++ evs2)%list. split; [now rewrite app_assoc|].
      split; [now apply Forall_app|].
      rewrite !calls_app, R1, (T1 eq_refl).
      destruct o as [a|e|]; [exact H2 | lia | lia].
    + inversion E; subst. exists evs1. split; [reflexivity|].
      split; [exact Q1|]. lia.
    + now contradiction Hr.
Qed.

(** X14.  On a constructed instance every turn of the loop reads the sensor
    exactly once and, if it completes, sleeps exactly once, for
    [UPDATE_INTERVAL] seconds: after [n] completed turns there have been [n]
    reads and [n] sleeps; when an exception ends the loop there has been one
    read per turn begun and one sleep for each but possibly the last.  The
    loop never sleeps for any other duration. *)
Theorem one_read_and_one_sleep_per_turn :
  forall (w : World) (n : nat) (self : AirMonitor) (h : list event)
         o (self' : AirMonitor) (h' : list event),
    dht_sensor self <> None ->
    Run w n self h = (o, self', h') ->
    exists evs,
      h' = (h ++ evs)%list /\
      Forall (sleeps_for (config self)) evs /\
      match o with
      | Running =>
          calls is_sensor_read evs = n /\ calls is_sleep evs = n
      | Raise _ =>
          (1 <= calls is_sensor_read evs <= n)%nat /\
          (calls is_sleep evs <= calls is_sensor_read evs)%nat /\
          (calls is_sensor_read evs <= S (calls is_sleep evs))%nat
      | Return _ => False
      end.
Proof.
  intros w n self h o self' h' Hd E.
  apply (Run_turns w (config self) n self h o self' h'); [|exact E].
  split; [reflexivity | exact Hd].
Qed.

Lemma one_read_and_one_sleep_per_turn_witness :
  calls is_sensor_read
    (snd (Run (Sample.world 0 true [] [] 1000) 3 (Sample.fresh None) []))
  = 3%nat /\
  calls is_sleep
    (snd (Run (Sample.world 0 true [] [] 1000) 3 (Sample.fresh None) []))
  = 3%nat.
Proof.
  destruct (Run (Sample.world 0 true [] [] 1000) 3 (Sample.fresh None) [])
    as [[o self'] h'] eqn:E.
  assert (Ho : o = Running) by (vm_compute in E; now inversion E).
  subst o.
  assert (Hd : dht_sensor (Sample.fresh None) <> None) by discriminate.
  destruct (one_read_and_one_sleep_per_turn _ _ _ _ _ _ _ Hd E)
    as [evs [Hh [_ [R S]]]].
  simpl in Hh. subst h'. simpl snd. split; assumption.
Defined.

(** ** What is sent *)

Lemma upload_value_sends (w : World) (k : string) (v : option string)
    (self : AirMonitor) (h : list event) o self' h' :
  upload_value w (k, v) self h = (o, self', h') ->
  exists evs, h' = (h ++ evs)%list /\ Forall (sends_one_of [v]) evs.
Proof.
  assert (Hl : forall k', sends_one_of [v] (aio_feeds k'))
    by (intros k' key value H; discriminate H).
  assert (Hc : forall k', sends_one_of [v] (aio_create_feed k'))
    by (intros k' key value H; discriminate H).
  unfold upload_value, bind, try_except, call, ret.
  destruct v as [[|c s]|]; cbn [PyStr.truthy PyStr.fstr];
    try (intros E; inversion E; subst; exists []; rewrite app_nil_r;
         split; [reflexivity | constructor]).
  assert (Hs : forall k', sends_one_of [Some (String c s)]
                            (aio_send_data k' (String c s))).
  { intros k' key value H. inversion H; subst. now left. }
  destruct (feeds w h k) as [fd|e1].
  - destruct (send_data w (h ++ [aio_feeds k]) (feed_key fd) (String c s))
      as [[]|e2]; intros E; inversion E; subst;
      exists [aio_feeds k; aio_send_data (feed_key fd) (String c s)];
      (split; [now rewrite <- app_assoc | repeat (apply Forall_cons; [solve [auto] |]); apply Forall_nil]).
  - destruct (is_RequestError e1).
    + destruct (create_feed w (h ++ [aio_feeds k]) k) as [fd|e2].
      * destruct (send_data w ((h ++ [aio_feeds k]) ++ [aio_create_feed k])
                    (feed_key fd) (String c s)) as [[]|e3];
          intros E; inversion E; subst;
          exists [aio_feeds k; aio_create_feed k;
                  aio_send_data (feed_key fd) (String c s)];
          (split; [now rewrite <- !app_assoc | repeat (apply Forall_cons; [solve [auto] |]); apply Forall_nil]).
      * intros E; inversion E; subst.
        exists [aio_feeds k; aio_create_feed k].
        split; [now rewrite <- app_assoc | repeat (apply Forall_cons; [solve [auto] |]); apply Forall_nil].
    + intros E; inversion E; subst. exists [aio_feeds k].
      split; [reflexivity | repeat (apply Forall_cons; [solve [auto] |]); apply Forall_nil].
Qed.

Lemma publish_sends (w : World) (values : list (string * option string)) :
  forall (self : AirMonitor) (h : list event) o self' h',
    for_each values (upload_value w) self h = (o, self', h') ->
    exists evs,
      h' = (h ++ evs)%list /\
      Forall (sends_one_of (map snd values)) evs.
Proof.
  induction values as [|[k v] values IH]; intros self h o self' h' E.
  - inversion E; subst. exists []. rewrite app_nil_r.
    split; [reflexivity | constructor].
  - cbn [for_each] in E. unfold bind in E.
    destruct (upload_value w (k, v) self h) as [[o1 self1] h1] eqn:E1.
    destruct (upload_value_sends _ _ _ _ _ _ _ _ E1) as [evs1 [-> F1]].
    assert (F1' : Forall (sends_one_of (map snd ((k, v) :: values))) evs1).
    { eapply Forall_impl; [|exact F1]. intros ev H key value Hev.
      destruct (H key value Hev) as [<- | []]. now left. }
    destruct o1 as [[]|e1|].
    + destruct (IH _ _ _ _ _ E) as [evs2 [-> F2]].
      exists (evs1 ++ evs2)%list. split; [now rewrite app_assoc|].
      apply Forall_app. split; [exact F1'|].
      eapply Forall_impl; [|exact F2]. intros ev H key value Hev.
      right. exact (H key value Hev).
    + inversion E; subst. now exists evs1.
    + inversion E; subst. now exists evs1.
Qed.

(** X15.  [AdafruitUpload] sends nothing but the readings the instance
    holds when it is called: every value that goes out is the stored
    fahrenheit, celsius or humidity text. *)
Theorem AdafruitUpload_sends_current_readings :
  forall (w : World) (self : AirMonitor) (h : list event),
    let '(o, self', h') := AdafruitUpload w self h in
    exists evs,
      h' = (h ++ evs)%list /\
      Forall (sends_one_of [temperature_fahrenheit self;
                            temperature_celsius self;
                            humidity self]) evs.
Proof.
  intros w self h.
  set (held := [temperature_fahrenheit self; temperature_celsius self;
                humidity self]).
  assert (Hn : sends_one_of held datetime_now)
    by (intros key value H; discriminate H).
  assert (Pass : forall pre o self' h',
             upload_pass w self (h ++ pre)%list = (o, self', h') ->
             Forall (sends_one_of held) pre ->
             exists evs,
               h' = (h ++ evs)%list /\ Forall (sends_one_of held) evs).
  { intros pre o self' h' Ep Fpre. rewrite upload_pass_eq in Ep.
    destruct (for_each _ (upload_value w) self (h ++ pre)%list)
      as [[o1 self1] h1] eqn:E1.
    destruct (publish_sends _ _ _ _ _ _ _ E1) as [evs [-> F]].
    change (map snd _) with held in F.
    destruct o1 as [[]|e|]; inversion Ep; subst.
    - exists (pre ++ evs ++ [datetime_now])%list.
      split; [now rewrite <- !app_assoc|].
      apply Forall_app; split; [exact Fpre|].
      apply Forall_app; split; [exact F|].
      apply Forall_cons; [exact Hn | apply Forall_nil].
    - exists (pre ++ evs)%list. split; [now rewrite <- app_assoc|].
      now apply Forall_app.
    - exists (pre ++ evs)%list. split; [now rewrite <- app_assoc|].
      now apply Forall_app. }
  rewrite AdafruitUpload_eq.
  destruct (enabled (ADAFRUIT_IO_ENABLED (config self))).
  2:{ exists []. rewrite app_nil_r. split; [reflexivity | constructor]. }
  rewrite upload_due_eq.
  destruct (adafruit_last_upload self) as [last|].
  - destruct (last + timedelta_minutes (UPLOAD_INTERVAL (config self))
              <=? clock w h).
    + destruct (upload_pass w self (h ++ [datetime_now])%list)
        as [[o self'] h'] eqn:Ep.
      apply (Pass [datetime_now] _ _ _ Ep).
      apply Forall_cons; [exact Hn | apply Forall_nil].
    + exists [datetime_now]. split; [reflexivity|].
      apply Forall_cons; [exact Hn | apply Forall_nil].
  - destruct (upload_pass w self h) as [[o self'] h'] eqn:Ep.
    apply (Pass [] o self' h'); [now rewrite app_nil_r | constructor].
Qed.
